(** * IoT dashboard: sliding window, statistics, ingestion and history route

    A shallow embedding of the two source files of the dashboard:

    - [src/unnamed/part_000]: the client component [Dashboard] (React state,
      [calculateStats], [fetchHistory], the MQTT handlers);
    - [src/app/api/sensors/route.ts]: the server route [GET] that queries
      InfluxDB and builds the snapshot response.

    JavaScript numbers are IEEE-754 binary64 values, modelled with the
    specification floats of the standard library ([spec_float], precision 53,
    maximal exponent 1024), so that [+], [/], [Math.min], [Math.max] and
    [toFixed] behave digit for digit as in the engine.

    React state is a record threaded through the handlers; what a handler
    prints, subscribes to, requests or queries is returned as a list of
    effects.  The clock, [JSON.parse], the date formatting and the store are
    inputs of the handlers that use them. *)

From Stdlib Require Import ZArith List String Ascii Bool Lia Permutation.
From Stdlib Require Import Floats.SpecFloat.
From Stdlib Require Import DecimalString.
Import ListNotations.

Open Scope string_scope.

(** ** JavaScript numbers *)

Module Number.

Local Open Scope Z_scope.

Definition prec : Z := 53.
Definition emax : Z := 1024.

Definition number : Type := spec_float.

Definition NaN : number := S754_nan.
Definition pos_zero : number := S754_zero false.
Definition neg_zero : number := S754_zero true.
Definition pos_infinity : number := S754_infinity false.
Definition neg_infinity : number := S754_infinity true.

(** The number denoted by an integer literal or by an array length. *)
Definition of_Z (z : Z) : number := binary_normalize prec emax z 0 false.
Definition of_nat (n : nat) : number := of_Z (Z.of_nat n).

(** [a + b] and [a / b] on numbers (round to nearest, ties to even). *)
Definition add (a b : number) : number := SFadd prec emax a b.
Definition div (a b : number) : number := SFdiv prec emax a b.

(** The literal [n/10] written with one decimal, e.g. [tenths 219] is the
    double denoted by [21.9]: the double nearest to the decimal. *)
Definition tenths (n : Z) : number := div (of_Z n) (of_Z 10).

Definition is_nan (x : number) : bool :=
  match x with S754_nan => true | _ => false end.
Definition is_pos_zero (x : number) : bool :=
  match x with S754_zero false => true | _ => false end.
Definition is_neg_zero (x : number) : bool :=
  match x with S754_zero true => true | _ => false end.
Definition is_zero (x : number) : bool :=
  match x with S754_zero _ => true | _ => false end.

(** [a < b], [a > b] and [a === b] on numbers. *)
Definition ltb (a b : number) : bool := SFltb a b.
Definition gtb (a b : number) : bool := SFltb b a.
Definition strict_eqb (a b : number) : bool := SFeqb a b.

(** ToBoolean on a number: [+0], [-0] and [NaN] are falsy. *)
Definition truthy (x : number) : bool := negb (is_zero x || is_nan x).

(** The loop of [Math.min] over the coerced arguments (ECMAScript
    21.3.2.25): a [NaN] argument makes the result [NaN], [-0] is below
    [+0]. *)
Fixpoint min_loop (lowest : number) (coerced : list number) : number :=
  match coerced with
  | [] => lowest
  | n :: rest =>
      if is_nan n then NaN
      else if is_neg_zero n && is_pos_zero lowest then min_loop neg_zero rest
      else if ltb n lowest then min_loop n rest
      else min_loop lowest rest
  end.

(** The loop of [Math.max] (ECMAScript 21.3.2.24). *)
Fixpoint max_loop (highest : number) (coerced : list number) : number :=
  match coerced with
  | [] => highest
  | n :: rest =>
      if is_nan n then NaN
      else if is_pos_zero n && is_neg_zero highest then max_loop pos_zero rest
      else if gtb n highest then max_loop n rest
      else max_loop highest rest
  end.

(** One turn of each loop on an argument that is not [NaN]. *)
Definition min_step (lowest n : number) : number :=
if is_neg_zero n && is_pos_zero lowest then neg_zero
else if ltb n lowest then n else lowest.

Definition max_step (highest n : number) : number :=
if is_pos_zero n && is_neg_zero highest then pos_zero
else if gtb n highest then n else highest.

(** *** Decimal rendering *)

Definition digits (n : Z) : string := NilZero.string_of_uint (N.to_uint (Z.to_N n)).

Definition pow10 (k : Z) : Z := 10 ^ k.

(** Number of decimal digits of a positive integer, by bounded search. *)
Fixpoint ndigits_aux (fuel : nat) (x : Z) (acc : Z) : Z :=
  match fuel with
  | O => acc
  | S fuel' => if x <? 10 then acc else ndigits_aux fuel' (x / 10) (acc + 1)
  end.
Definition ndigits (x : Z) : Z := ndigits_aux (Z.to_nat (Z.log2 x) + 1) x 1.

(** [shortest fuel k x X nd]: the search of Number::toString (ECMAScript
    6.1.6.1.20) for the least number of digits [k] and the digit string [s]
    with [s * 10^(n-k)] reading back as the double [x], whose exact value is
    the integer [X] of [nd] decimal digits.  Returns [(s, k, n)]. *)
Fixpoint shortest (fuel : nat) (k : Z) (x : number) (X nd : Z) : Z * Z * Z :=
  let p := nd - k in
  let lo := X / pow10 p in
  let hi := lo + 1 in
  let back s := match x, of_Z (s * pow10 p) with
                | S754_finite _ m e, S754_finite _ m' e' => Pos.eqb m m' && Z.eqb e e'
                | _, _ => false
                end in
  let pick_hi := if hi =? pow10 k then (pow10 (k - 1), k, nd + 1) else (hi, k, nd) in
  match fuel with
  | O => (lo, k, nd)
  | S fuel' =>
      match back lo, back hi with
      | true, true => if X - lo * pow10 p <=? hi * pow10 p - X then (lo, k, nd) else pick_hi
      | true, false => (lo, k, nd)
      | false, true => pick_hi
      | false, false => shortest fuel' (k + 1) x X nd
      end
  end.

(** Number::toString for a finite double whose value is an integer
    [X >= 10^21]: exponential notation [d.ddde+NN]. *)
Definition toString_large (x : number) (X : Z) : string :=
  let '(s, k, n) := shortest 17 1 x X (ndigits X) in
  let ds := digits s in
  let mant := match ds with
              | String d EmptyString => ds
              | String d rest => String d ("." ++ rest)
              | EmptyString => ds
              end in
  mant ++ "e+" ++ digits (n - 1).

(** [x.toFixed(1)] (ECMAScript 21.1.3.3 with fractionDigits 1).  For a
    finite [x] below [10^21] in magnitude the integer [n] is the one for
    which [n / 10 - x] is closest to zero, the larger one on a tie, that is
    [floor (10 * x + 1/2)]; the result has the digits of [n] with a point
    before the last one, and a leading zero when [n < 10]. *)
Definition toFixed1 (x : number) : string :=
  match x with
  | S754_nan => "NaN"
  | S754_infinity false => "Infinity"
  | S754_infinity true => "-Infinity"
  | S754_zero _ => "0.0"
  | S754_finite sgn m e =>
      let s := if sgn then "-" else "" in
      let large := if 0 <=? e then pow10 21 <=? Z.pos m * 2 ^ e
                   else pow10 21 * 2 ^ (- e) <=? Z.pos m in
      if large then s ++ toString_large x (if 0 <=? e then Z.pos m * 2 ^ e else Z.pos m / 2 ^ (- e))
      else
        let n := if 0 <=? e then 10 * Z.pos m * 2 ^ e
                 else (20 * Z.pos m + 2 ^ (- e)) / (2 * 2 ^ (- e)) in
        s ++ digits (n / 10) ++ "." ++ digits (n mod 10)
  end.

End Number.

Import Number.

(** ** Values of object properties

    A property read from a parsed JSON object or from a query row is the
    value itself, [null], or [undefined] when the key is missing.  The
    sensor fields carry numbers and the status and time fields carry
    strings, as the interface [SensorData] declares them. *)

Inductive Js (A : Type) : Type :=
| undefined
| null
| val (a : A).

Arguments undefined {A}.
Arguments null {A}.
Arguments val {A} a.

(** [v !== null]: only [null] itself is excluded, [undefined] is not. *)
Definition not_null {A} (v : Js A) : bool :=
  match v with null => false | _ => true end.

(** ToBoolean: [undefined], [null], [0], [-0], [NaN] and the empty string
    are falsy. *)
Definition truthy_number (v : Js number) : bool :=
  match v with val x => Number.truthy x | _ => false end.

Definition truthy_string (v : Js string) : bool :=
  match v with val s => negb (String.eqb s "") | _ => false end.

(** [v || d] for a string-valued property and a string default. *)
Definition or_else (v : Js string) (d : string) : string :=
  match v with
  | val s => if String.eqb s "" then d else s
  | _ => d
  end.

(** ToNumber: [undefined] is [NaN] and [null] is [+0]. *)
Definition ToNumber (v : Js number) : number :=
  match v with undefined => NaN | null => pos_zero | val x => x end.

(** [v === 0] *)
Definition strict_eq_zero (v : Js number) : bool :=
  match v with val x => strict_eqb x pos_zero | _ => false end.

Definition Math_min (args : list (Js number)) : number :=
  min_loop pos_infinity (map ToNumber args).

Definition Math_max (args : list (Js number)) : number :=
  max_loop neg_infinity (map ToNumber args).

(** [xs.reduce((a, b) => a + b, 0)] *)
Definition reduce_add (xs : list (Js number)) : number :=
  fold_left (fun a b => add a (ToNumber b)) xs pos_zero.

(** [xs.length ? yes : no] *)
Definition if_length {A B} (xs : list A) (yes no : B) : B :=
  match xs with [] => no | _ :: _ => yes end.

(** [xs.slice(-n)]: the last [n] elements, all of them when there are fewer. *)
Definition slice_last {A} (n : nat) (xs : list A) : list A :=
  skipn (List.length xs - n) xs.

(** [xs.slice(0, n)] *)
Definition slice_first {A} (n : nat) (xs : list A) : list A := firstn n xs.

(** ** The data model *)

Record SensorData : Type := {
  temperature : Js number;
  humidity : Js number;
  light_status : Js string;
  light_value : Js number;
  timestamp : Js string;
  time : Js string
}.

Module Stats.
Record Metric (A : Type) : Type := { min : A; max : A; avg : A }.
Record t (A : Type) : Type := { temp : Metric A; humidity : Metric A }.
Arguments Build_Metric {A}.
Arguments min {A}.
Arguments max {A}.
Arguments avg {A}.
Arguments Build_t {A}.
Arguments temp {A}.
Arguments humidity {A}.
Definition all {A} (a : A) : Metric A := {| min := a; max := a; avg := a |}.
End Stats.

(** ** The history query and the store that answers it *)

Module Flux.

(** Timestamps ([_time]) and durations, in nanoseconds. *)
Definition Time : Type := Z.
Definition hours (h : Z) : Z := (h * 3600 * 1000000000)%Z.

(** The pipeline stages the route's query text is made of. *)
Inductive Stage : Type :=
| from (bucket : string)
| range (start : Z)
| filter_measurement (name : string)
| pivot (rowKey columnKey : list string) (valueColumn : string)
| sort (columns : list string) (desc : bool)
| limit (n : nat).

Definition Query : Type := list Stage.

(** A row handed to the [next] callback, read through
    [tableMeta.toObject(row)]. *)
Record Row : Type := {
  _time : Time;
  temperature : Js number;
  humidity : Js number;
  light_status : Js string;
  light_value : Js number
}.

(** What [queryRows] does with its callbacks: [next] for each row, then
    [error] or [complete]. *)
Inductive Ending : Type := complete | error.
Record Run : Type := { rows : list Row; ending : Ending }.

End Flux.

(** What the handlers print or request, in order. *)
Inductive Effect : Type :=
| console_log (msg : string)
| console_error (msg : string)
| subscribe (topic : string)
| fetch (url : string)
| query_rows (q : Flux.Query).

(** ** The snapshot exchanged between the route and the component

    The JSON object the route answers with and the component reads: a key
    that is not set reads back as [undefined]. *)

Module Api.
Record Body : Type := {
  current : Js SensorData;
  history : Js (list SensorData);
  chartData : Js (list SensorData);
  stats : Js (Stats.t (Js string));
  error : Js string
}.
End Api.

(** ** The client component: [Dashboard] *)

Module Dashboard.

Inductive Status : Type := connecting | online | offline.

Record State : Type := {
  data : SensorData;
  chartData : list SensorData;
  stats : Stats.t string;
  status : Status;
  messageCount : nat
}.

(** The initial values of the [useState] hooks. *)
Definition initial : State := {|
  data := {| temperature := null; humidity := null;
             light_status := val "unknown"; light_value := val pos_zero;
             timestamp := val "-"; time := val "-" |};
  chartData := [];
  stats := {| Stats.temp := Stats.all "--"; Stats.humidity := Stats.all "--" |};
  status := connecting;
  messageCount := 0
|}.

Definition setData (d : SensorData) (st : State) : State :=
  {| data := d; chartData := chartData st; stats := stats st;
     status := status st; messageCount := messageCount st |}.
Definition setChartData (c : list SensorData) (st : State) : State :=
  {| data := data st; chartData := c; stats := stats st;
     status := status st; messageCount := messageCount st |}.
Definition setStats (s : Stats.t string) (st : State) : State :=
  {| data := data st; chartData := chartData st; stats := s;
     status := status st; messageCount := messageCount st |}.
Definition setStatus (s : Status) (st : State) : State :=
  {| data := data st; chartData := chartData st; stats := stats st;
     status := s; messageCount := messageCount st |}.
Definition setMessageCount (f : nat -> nat) (st : State) : State :=
  {| data := data st; chartData := chartData st; stats := stats st;
     status := status st; messageCount := f (messageCount st) |}.

(** The two filtered series of [calculateStats]. *)
Definition temps (data : list SensorData) : list (Js number) :=
  map temperature (filter (fun r => not_null (temperature r)) data).
Definition humids (data : list SensorData) : list (Js number) :=
  map humidity (filter (fun r => not_null (humidity r)) data).

Definition calculateStats (data : list SensorData) : Stats.t string :=
  let temps := temps data in
  let humids := humids data in
  {| Stats.temp := {|
       Stats.min := if_length temps (toFixed1 (Math_min temps)) "--";
       Stats.max := if_length temps (toFixed1 (Math_max temps)) "--";
       Stats.avg := if_length temps
                      (toFixed1 (div (reduce_add temps) (of_nat (List.length temps)))) "--" |};
     Stats.humidity := {|
       Stats.min := if_length humids (toFixed1 (Math_min humids)) "--";
       Stats.max := if_length humids (toFixed1 (Math_max humids)) "--";
       Stats.avg := if_length humids
                      (toFixed1 (div (reduce_add humids) (of_nat (List.length humids)))) "--" |} |}.

(** *** The MQTT handlers *)

(** What [JSON.parse] returns: for the handler only the five properties it
    reads matter.  Reading a property of [null] throws; reading one of a
    number, string, boolean or array yields [undefined]. *)
Record PayloadObject : Type := {
  p_temperature : Js number;
  p_humidity : Js number;
  p_light_status : Js string;
  p_light_value : Js number;
  p_timestamp : Js string
}.

Inductive Json : Type :=
| JsonNull
| JsonObject (o : PayloadObject)
| JsonOther.

Definition no_properties : PayloadObject := {|
  p_temperature := undefined; p_humidity := undefined;
  p_light_status := undefined; p_light_value := undefined;
  p_timestamp := undefined |}.

(** The wall clock read by the handler: [new Date().toLocaleString(..)]
    and [new Date().toLocaleTimeString(..)]. *)
Record Clock : Type := { now_locale : string; now_time : string }.

(** The object literal [newData] built from the payload's properties. *)
Definition newData (o : PayloadObject) (clock : Clock) : SensorData := {|
  temperature := p_temperature o;
  humidity := p_humidity o;
  light_status :=
    val (or_else (p_light_status o)
           (if strict_eq_zero (p_light_value o) then "dark" else "bright"));
  light_value := p_light_value o;
  timestamp := val (or_else (p_timestamp o) (now_locale clock));
  time := val (now_time clock)
|}.

(** The updater passed to [setChartData]: append, keep the last 100. *)
Definition append (prev : list SensorData) (d : SensorData) : list SensorData :=
  slice_last 100 (prev ++ [d])%list.

Section Handlers.

(** [JSON.parse]: a syntax error or the parsed value. *)
Variable JSON_parse : string -> option Json.

Definition on_connect (st : State) : State * list Effect :=
  (setStatus online st,
   [console_log "Connected to MQTT broker"; subscribe "sensors/data"]).

Definition accept (o : PayloadObject) (clock : Clock) (st : State) : State :=
  let d := newData o clock in
  let st := setData d st in
  let st := setMessageCount (fun prev => prev + 1) st in
  let updated := append (chartData st) d in
  let st := setStats (calculateStats updated) st in
  setChartData updated st.

Definition on_message (message : string) (clock : Clock) (st : State)
  : State * list Effect :=
  match JSON_parse message with
  | None => (st, [console_error "Failed to parse message:"])
  | Some JsonNull => (st, [console_error "Failed to parse message:"])
  | Some (JsonObject o) => (accept o clock st, [])
  | Some JsonOther => (accept no_properties clock st, [])
  end.

Definition on_error (st : State) : State * list Effect :=
  (setStatus offline st, [console_error "MQTT error:"]).

Definition on_close (st : State) : State * list Effect :=
  (setStatus offline st, []).

(** The events the component reacts to. *)
Inductive Event : Type :=
| connect
| message (payload : string) (clock : Clock)
| error
| close.

Definition handle (st : State) (ev : Event) : State * list Effect :=
  match ev with
  | connect => on_connect st
  | message m c => on_message m c st
  | error => on_error st
  | close => on_close st
  end.

Definition step (st : State) (ev : Event) : State := fst (handle st ev).

Definition run (evs : list Event) (st : State) : State := fold_left step evs st.

(** The Samples a sequence of events appends to the window, in arrival
    order: one for each message whose payload the handler accepts. *)
Definition appended (evs : list Event) : list SensorData :=
flat_map (fun ev =>
            match ev with
            | message m c =>
                match JSON_parse m with
                | Some (JsonObject o) => [newData o c]
                | Some JsonOther => [newData no_properties c]
                | Some JsonNull | None => []
                end
            | connect | error | close => []
            end) evs.

End Handlers.

(** *** The history bootstrap

    [fetch('/api/sensors')] followed by [res.json()] either rejects (the
    request fails, or the body is not a JSON object) or resolves to the
    parsed body. *)
Inductive FetchResult : Type :=
| rejected
| resolved (json : Api.Body).

Definition fetchHistory (res : FetchResult) (st : State) : State * list Effect :=
  match res with
  | rejected =>
      (st, [fetch "/api/sensors"; console_error "Failed to fetch history:"])
  | resolved json =>
      let st := match Api.chartData json with
                | val c => setStats (calculateStats c) (setChartData c st)
                | _ => st
                end in
      let st := match Api.current json with
                | val d => setData d st
                | _ => st
                end in
      (st, [fetch "/api/sensors"])
  end.

End Dashboard.

(** ** The server route: [GET /api/sensors] *)

(** A handler that may run the query against the store and print. *)
Inductive Prog (R : Type) : Type :=
| Return (r : R)
| QueryRows (q : Flux.Query) (k : Flux.Run -> Prog R)
| ConsoleError (msg : string) (k : Prog R).

Arguments Return {R} r.
Arguments QueryRows {R} q k.
Arguments ConsoleError {R} msg k.

(** Running a handler against a store: its result and what it did. *)
Fixpoint perform {R} (influx : Flux.Query -> Flux.Run) (p : Prog R) : R * list Effect :=
  match p with
  | Return r => (r, [])
  | QueryRows q k =>
      let '(r, tr) := perform influx (k (influx q)) in (r, query_rows q :: tr)
  | ConsoleError msg k =>
      let '(r, tr) := perform influx k in (r, console_error msg :: tr)
  end.

Module Route.

Record Response : Type := { status : nat; body : Api.Body }.

Section GET.

(** [process.env.INFLUX_BUCKET] *)
Variable INFLUX_BUCKET : string.

(** [new Date(t).toLocaleString('en-IN', ..)] and
    [new Date(t).toLocaleTimeString('en-IN', ..)]. *)
Variable toLocaleString : Flux.Time -> string.
Variable toLocaleTimeString : Flux.Time -> string.

Definition query : Flux.Query :=
  [ Flux.from INFLUX_BUCKET;
    Flux.range (Flux.hours (-6));
    Flux.filter_measurement "environment";
    Flux.pivot ["_time"] ["_field"] "_value";
    Flux.sort ["_time"] true;
    Flux.limit 500 ].

(** The object pushed on [results] by the [next] callback. *)
Definition next (data : Flux.Row) : SensorData := {|
  timestamp := val (toLocaleString (Flux._time data));
  time := val (toLocaleTimeString (Flux._time data));
  temperature := Flux.temperature data;
  humidity := Flux.humidity data;
  light_status := val (or_else (Flux.light_status data) "unknown");
  light_value := Flux.light_value data
|}.

(** The two filtered series of the route's statistics. *)
Definition temps (results : list SensorData) : list (Js number) :=
  map temperature (filter (fun r => truthy_number (temperature r)) results).
Definition humids (results : list SensorData) : list (Js number) :=
  map humidity (filter (fun r => truthy_number (humidity r)) results).

Definition stats (results : list SensorData) : Stats.t (Js string) :=
  let temps := temps results in
  let humids := humids results in
  {| Stats.temp := {|
       Stats.min := if_length temps (val (toFixed1 (Math_min temps))) null;
       Stats.max := if_length temps (val (toFixed1 (Math_max temps))) null;
       Stats.avg := if_length temps
                      (val (toFixed1 (div (reduce_add temps) (of_nat (List.length temps)))))
                      null |};
     Stats.humidity := {|
       Stats.min := if_length humids (val (toFixed1 (Math_min humids))) null;
       Stats.max := if_length humids (val (toFixed1 (Math_max humids))) null;
       Stats.avg := if_length humids
                      (val (toFixed1 (div (reduce_add humids) (of_nat (List.length humids)))))
                      null |} |}.

(** The literal used for [current] when there is no row. *)
Definition placeholder : SensorData := {|
  temperature := null; humidity := null;
  light_status := val "unknown"; timestamp := val "-";
  light_value := undefined; time := undefined |}.

Definition success (results : list SensorData) : Response :=
  let chartData := rev results in
  let stats := stats results in
  {| status := 200;
     body := {| Api.current := val (match results with
                                    | first :: _ => first
                                    | [] => placeholder
                                    end);
                Api.history := val (slice_first 20 results);
                Api.chartData := val chartData;
                Api.stats := val stats;
                Api.error := undefined |} |}.

Definition failure : Response :=
  {| status := 500;
     body := {| Api.current := undefined; Api.history := undefined;
                Api.chartData := undefined; Api.stats := undefined;
                Api.error := val "Failed to fetch data" |} |}.

Definition GET : Prog Response :=
  QueryRows query (fun run =>
    let results := map next (Flux.rows run) in
    match Flux.ending run with
    | Flux.complete => Return (success results)
    | Flux.error => ConsoleError "InfluxDB error:" (Return failure)
    end).

End GET.

End Route.

(** ** A model of the store answering the query

    The time-series store is outside the repository.  This is the meaning of
    the six stage shapes the route's query uses, on a bucket that holds one
    series per field (no tags): points are selected by time and measurement,
    [pivot] gathers the fields written at one [_time] into a row, [sort]
    orders rows by [_time], [limit] keeps the first [n]. *)

Module Influx.

Import Flux.

Local Open Scope Z_scope.

Inductive Field : Type :=
| temperature_is (x : number)
| humidity_is (x : number)
| light_status_is (s : string)
| light_value_is (x : number).

Record Point : Type := { at_time : Time; measurement : string; field : Field }.

Definition Bucket : Type := list Point.

Definition blank (t : Time) : Row :=
{| _time := t; temperature := null; humidity := null;
   light_status := null; light_value := null |}.

Definition set_field (f : Field) (r : Row) : Row :=
match f with
| temperature_is x =>
    {| _time := _time r; temperature := val x; humidity := humidity r;
       light_status := light_status r; light_value := light_value r |}
| humidity_is x =>
    {| _time := _time r; temperature := temperature r; humidity := val x;
       light_status := light_status r; light_value := light_value r |}
| light_status_is s =>
    {| _time := _time r; temperature := temperature r; humidity := humidity r;
       light_status := val s; light_value := light_value r |}
| light_value_is x =>
    {| _time := _time r; temperature := temperature r; humidity := humidity r;
       light_status := light_status r; light_value := val x |}
end.

(** Add a point to the row of its [_time], creating the row if needed. *)
Fixpoint upsert (p : Point) (rs : list Row) : list Row :=
match rs with
| [] => [set_field (field p) (blank (at_time p))]
| r :: rs' =>
    if _time r =? at_time p then set_field (field p) r :: rs'
    else r :: upsert p rs'
end.

Definition pivot_rows (ps : list Point) : list Row :=
fold_left (fun rs p => upsert p rs) ps [].

(** [before desc a b]: row [a] may precede row [b] in the sorted output. *)
Definition before (desc : bool) (a b : Row) : bool :=
if desc then _time b <=? _time a else _time a <=? _time b.

Fixpoint insert_sorted (desc : bool) (r : Row) (rs : list Row) : list Row :=
match rs with
| [] => [r]
| r' :: rs' =>
    if before desc r r' then r :: r' :: rs' else r' :: insert_sorted desc r rs'
end.

Definition sort_rows (desc : bool) (rs : list Row) : list Row :=
fold_right (insert_sorted desc) [] rs.

(** The stream between two stages: raw points before [pivot], rows after. *)
Inductive Stream : Type :=
| raw (ps : list Point)
| table (rs : list Row).

Definition in_range (now start t : Time) : bool :=
(now + start <=? t) && (t <? now).

Definition apply (bucket : string -> Bucket) (now : Time) (s : Stream) (st : Stage)
  : Stream :=
match st, s with
| from b, _ => raw (bucket b)
| range start, raw ps => raw (filter (fun p => in_range now start (at_time p)) ps)
| range start, table rs => table (filter (fun r => in_range now start (_time r)) rs)
| filter_measurement m, raw ps =>
    raw (filter (fun p => String.eqb (measurement p) m) ps)
| filter_measurement _, table rs => table rs
| pivot _ _ _, raw ps => table (pivot_rows ps)
| pivot _ _ _, table rs => table rs
| sort _ desc, table rs => table (sort_rows desc rs)
| sort _ _, raw ps => raw ps
| limit n, raw ps => raw (firstn n ps)
| limit n, table rs => table (firstn n rs)
end.

Definition execute (bucket : string -> Bucket) (now : Time) (q : Query) : list Row :=
match fold_left (apply bucket now) q (raw []) with
| table rs => rs
| raw _ => []
end.

(** A store that is up: it streams the rows of the query and completes. *)
Definition serve (bucket : string -> Bucket) (now : Time) (q : Query) : Run :=
{| rows := execute bucket now q; ending := complete |}.

End Influx.

(** The queries among the things a handler did. *)
Definition queries_issued (trace : list Effect) : list Flux.Query :=
flat_map (fun e => match e with query_rows q => [q] | _ => [] end) trace.

(** ** Sample data used in the examples *)

(** A reading with the given temperature and humidity. *)
Definition reading (t h : Js number) : SensorData :=
{| temperature := t; humidity := h;
   light_status := val "bright"; light_value := val (of_Z 1);
   timestamp := val "-"; time := val "-" |}.

(** Four readings of 21.9, 28.2, 25.6 and 26.1 degrees at 40 percent
    humidity, and the same four with the second and third exchanged. *)
Definition afternoon : list SensorData :=
map (fun t => reading (val (tenths t)) (val (of_Z 40))) [219; 282; 256; 261]%Z.

Definition afternoon_swapped : list SensorData :=
map (fun t => reading (val (tenths t)) (val (of_Z 40))) [219; 256; 282; 261]%Z.

(** A payload parser for the examples: it accepts the empty object only. *)
Definition parse_empty_object (s : string) : option Dashboard.Json :=
if String.eqb s "{}" then Some (Dashboard.JsonObject Dashboard.no_properties)
else None.

Definition noon : Dashboard.Clock :=
{| Dashboard.now_locale := "3/11/2026, 12:00:00 pm";
   Dashboard.now_time := "12:00:00 pm" |}.

(** ** The statistics as the specification words them

    Keep the Samples in which the metric is present, that is, a number; the
    minimum, the maximum and the mean of these values, each with one decimal;
    the no-data marker for all three when no value is present. *)

Definition present_values (metric : SensorData -> Js number) (data : list SensorData)
  : list number :=
flat_map (fun r => match metric r with val x => [x] | undefined | null => [] end) data.

Definition spec_metric {A} (no_data : A) (render : string -> A) (xs : list number)
  : Stats.Metric A :=
match xs with
| [] => Stats.all no_data
| _ :: _ =>
    {| Stats.min := render (toFixed1 (min_loop pos_infinity xs));
       Stats.max := render (toFixed1 (max_loop neg_infinity xs));
       Stats.avg := render (toFixed1 (div (fold_left add xs pos_zero)
                                          (of_nat (List.length xs)))) |}
end.

(** A reading taken at the freezing point with a dry sensor. *)
Definition freezing : SensorData := reading (val (of_Z 0)) (val (of_Z 0)).

(** A payload without [light_status] whose [light_value] is 0, and one
    whose [light_value] is 1. *)
Definition dark_payload : Dashboard.PayloadObject :=
{| Dashboard.p_temperature := val (tenths 219); Dashboard.p_humidity := val (of_Z 40);
   Dashboard.p_light_status := undefined; Dashboard.p_light_value := val (of_Z 0);
   Dashboard.p_timestamp := undefined |}.

Definition bright_payload : Dashboard.PayloadObject :=
{| Dashboard.p_temperature := val (tenths 219); Dashboard.p_humidity := val (of_Z 40);
   Dashboard.p_light_status := undefined; Dashboard.p_light_value := val (of_Z 1);
   Dashboard.p_timestamp := undefined |}.

(** A row without [light_status] whose [light_value] is 0. *)
Definition dark_row : Flux.Row :=
{| Flux._time := 0%Z; Flux.temperature := val (tenths 219);
   Flux.humidity := val (of_Z 40); Flux.light_status := undefined;
   Flux.light_value := val (of_Z 0) |}.

(** A bucket with readings one, two and ten hours before hour 100. *)
Definition greenhouse (bucket : string) : Influx.Bucket :=
if String.eqb bucket "sensors" then
  [ {| Influx.at_time := Flux.hours 90; Influx.measurement := "environment";
       Influx.field := Influx.temperature_is (tenths 205) |};
    {| Influx.at_time := Flux.hours 98; Influx.measurement := "environment";
       Influx.field := Influx.temperature_is (tenths 219) |};
    {| Influx.at_time := Flux.hours 98; Influx.measurement := "environment";
       Influx.field := Influx.light_value_is (of_Z 0) |};
    {| Influx.at_time := Flux.hours 99; Influx.measurement := "environment";
       Influx.field := Influx.temperature_is (tenths 282) |};
    {| Influx.at_time := Flux.hours 99; Influx.measurement := "environment";
       Influx.field := Influx.humidity_is (of_Z 40) |} ]
else [].

(** A store that fails after streaming one row. *)
Definition broken_store (q : Flux.Query) : Flux.Run :=
{| Flux.rows := [dark_row]; Flux.ending := Flux.error |}.

(** Dates are shown by their hour in the examples. *)
Definition show_hour (t : Flux.Time) : string :=
digits (t / Flux.hours 1).

(** ** What the component renders

    The values the JSX of [Dashboard] puts on the page: the header, the three
    cards, the data handed to the charts and the rows of the table.  The
    markup around them is constant and left out. *)

Module Render.

Import Dashboard.

(** The text, the classes and the dot of the status badge. *)
Definition badge_label (s : Status) : string :=
match s with
| online => "Live (WebSocket)"
| offline => "Disconnected"
| connecting => "Connecting..."
end.

Definition badge_class (s : Status) : string :=
match s with
| online => "bg-green-500/20 text-green-400"
| offline => "bg-red-500/20 text-red-400"
| connecting => "bg-yellow-500/20 text-yellow-400"
end.

Definition dot_class (s : Status) : string :=
match s with
| online => "bg-green-400 animate-pulse"
| offline => "bg-red-400"
| connecting => "bg-yellow-400 animate-pulse"
end.

(** [v !== null ? `${v.toFixed(1)}unit` : '--']: calling [toFixed] on
    [undefined] throws a TypeError, which is [None] here. *)
Definition card_text (unit : string) (v : Js number) : option string :=
match v with
| null => Some "--"
| undefined => None
| val x => Some (toFixed1 x ++ unit)
end.

(** [v?.toFixed(1) || '--'] *)
Definition cell_text (v : Js number) : string :=
match v with
| val x => if String.eqb (toFixed1 x) "" then "--" else toFixed1 x
| undefined | null => "--"
end.

(** [s === 'bright'] *)
Definition is_bright (s : Js string) : bool :=
match s with val t => String.eqb t "bright" | undefined | null => false end.

Inductive Icon : Type := sun | moon.

Record Row : Type := {
  key : nat;
  highlighted : bool;
  cell_time : Js string;
  cell_temperature : string;
  cell_humidity : string;
  cell_light : Js string
}.

(** The callback of [map] in the table body, with the index [i]. *)
Definition row (i : nat) (r : SensorData) : Row :=
{| key := i;
   highlighted := Nat.eqb i 0;
   cell_time := time r;
   cell_temperature := cell_text (temperature r);
   cell_humidity := cell_text (humidity r);
   cell_light := light_status r |}.

(** [xs.map((x, i) => f i x)], counting from [i]. *)
Fixpoint map_index {A B} (f : nat -> A -> B) (i : nat) (xs : list A) : list B :=
match xs with
| [] => []
| x :: xs' => f i x :: map_index f (S i) xs'
end.

(** [chartData.slice(-10).reverse().map((row, i) => ...)] *)
Definition table (chartData : list SensorData) : list Row :=
map_index row 0 (rev (slice_last 10 chartData)).

Record View : Type := {
  messages : nat;
  badge : string * string * string;
  temperature_card : string;
  temperature_stats : Stats.Metric string;
  humidity_card : string;
  humidity_stats : Stats.Metric string;
  light_gradient : string;
  light_text : Js string;
  light_icon : Icon;
  light_time : Js string;
  charts : list SensorData;
  rows : list Row
}.

(** The component function from the state to the page; [None] when an
    expression of the JSX throws. *)
Definition render (st : State) : option View :=
match card_text "°C" (temperature (data st)) with
| None => None
| Some temperature_text =>
    match card_text "%" (humidity (data st)) with
    | None => None
    | Some humidity_text =>
        Some {| messages := messageCount st;
                badge := (badge_class (status st), dot_class (status st),
                          badge_label (status st));
                temperature_card := temperature_text;
                temperature_stats := Stats.temp (stats st);
                humidity_card := humidity_text;
                humidity_stats := Stats.humidity (stats st);
                light_gradient :=
                  if is_bright (light_status (data st))
                  then "from-yellow-400 to-orange-500"
                  else "from-gray-600 to-gray-800";
                light_text := light_status (data st);
                light_icon := if is_bright (light_status (data st)) then sun else moon;
                light_time := time (data st);
                charts := chartData st;
                rows := table (chartData st) |}
    end
end.

End Render.

(** ** The two kinds of MQTT events *)

Module Lifecycle.

Import Dashboard.

Definition is_message (ev : Event) : bool :=
match ev with message _ _ => true | connect | error | close => false end.

Definition is_connection (ev : Event) : bool := negb (is_message ev).

End Lifecycle.

(** ** From the route to the component

    [NextResponse.json(body)] writes the body with [JSON.stringify] and
    [res.json()] reads it back with [JSON.parse]: a key whose value is
    [undefined] is left out and reads back as [undefined]; [NaN] and the
    infinities are written as [null]; [-0] is written as [0]; every other
    number is written with the digits that read back as the same double. *)

Module Wire.

Definition wire_number (v : Js number) : Js number :=
match v with
| val S754_nan => null
| val (S754_infinity _) => null
| val (S754_zero _) => val pos_zero
| val (S754_finite s m e) => val (S754_finite s m e)
| null => null
| undefined => undefined
end.

Definition wire_sample (d : SensorData) : SensorData :=
{| temperature := wire_number (temperature d);
   humidity := wire_number (humidity d);
   light_status := light_status d;
   light_value := wire_number (light_value d);
   timestamp := timestamp d;
   time := time d |}.

Definition wire_key {A B} (f : A -> B) (v : Js A) : Js B :=
match v with
| val a => val (f a)
| null => null
| undefined => undefined
end.

Definition wire_body (b : Api.Body) : Api.Body :=
{| Api.current := wire_key wire_sample (Api.current b);
   Api.history := wire_key (map wire_sample) (Api.history b);
   Api.chartData := wire_key (map wire_sample) (Api.chartData b);
   Api.stats := Api.stats b;
   Api.error := Api.error b |}.

(** The component's bootstrap against a route that asks the store
    [influx]: the request, the route's handler, the response body over the
    wire, and [fetchHistory] on what arrives. *)
Definition bootstrap (influx : Flux.Query -> Flux.Run) (bucket : string)
    (toLocaleString toLocaleTimeString : Flux.Time -> string) (st : Dashboard.State)
  : Dashboard.State :=
fst (Dashboard.fetchHistory
       (Dashboard.resolved
          (wire_body
             (Route.body
                (fst (perform influx
                        (Route.GET bucket toLocaleString toLocaleTimeString))))))
       st).

End Wire.

(** ** Extrema that are readings

    [attains_extrema render counted metric data stats]: the minimum and the
    maximum of [stats] are the renderings of the metric of two Samples of
    [data], and no counted value of the metric in [data] is below the one or
    above the other. *)

Definition attains_extrema {A} (render : string -> A) (counted : number -> bool)
    (metric : SensorData -> Js number) (data : list SensorData)
    (stats : Stats.Metric A) : Prop :=
exists (lo hi : SensorData) (l h : number),
  In lo data /\ In hi data
  /\ metric lo = val l /\ metric hi = val h
  /\ counted l = true /\ counted h = true
  /\ Stats.min stats = render (toFixed1 l)
  /\ Stats.max stats = render (toFixed1 h)
  /\ forall r x, In r data -> metric r = val x -> counted x = true ->
                 ltb x l = false /\ ltb h x = false.

(** Every value of the metric in [data] is [null] or a number other than
    [NaN]. *)
Definition clean (metric : SensorData -> Js number) (data : list SensorData) : Prop :=
forall r, In r data ->
          metric r = null \/ exists x, metric r = val x /\ is_nan x = false.

(** A reading sent without its temperature key. *)
Definition light_only : SensorData :=
{| temperature := undefined; humidity := undefined;
   light_status := val "dark"; light_value := val (of_Z 0);
   timestamp := val "-"; time := val "-" |}.

(** The text of a message with a temperature, a humidity and a light value,
    and a payload parser for the examples that accepts this text and the
    empty object. *)
Definition quoted (s : string) : string :=
String (ascii_of_nat 34) (s ++ String (ascii_of_nat 34) "").

Definition dark_text : string :=
"{" ++ quoted "temperature" ++ ":21.9," ++ quoted "humidity" ++ ":40,"
    ++ quoted "light_value" ++ ":0}".

Definition parse_reading (s : string) : option Dashboard.Json :=
if String.eqb s dark_text then Some (Dashboard.JsonObject dark_payload)
else parse_empty_object s.

(** * Facts *)

(** ** The sliding window *)

Section SliceFacts.

Context {A : Type}.

Lemma slice_last_length (n : nat) (xs : list A) :
  List.length (slice_last n xs) = Nat.min n (List.length xs).
Proof.
  unfold slice_last. rewrite length_skipn. lia.
Qed.

(** Trimming before an append does not change what a later trim keeps. *)
Lemma slice_last_absorb (n : nat) (xs ys : list A) :
  slice_last n (slice_last n xs ++ ys)%list = slice_last n (xs ++ ys)%list.
Proof.
  unfold slice_last.
  rewrite !length_app, length_skipn.
  set (k := List.length xs - n).
  assert (Hk : k <= List.length xs) by (unfold k; lia).
  replace (List.length xs + List.length ys - n)
    with ((List.length xs - k + List.length ys - n) + k) by (unfold k; lia).
  rewrite <- skipn_skipn. f_equal.
  rewrite skipn_app. replace (k - List.length xs) with 0 by lia.
  reflexivity.
Qed.

(** The suffix kept by a trim of an extended list lies in the extension
    once the extension alone fills the window. *)
Lemma slice_last_suffix (n : nat) (xs ys : list A) :
  n <= List.length ys -> slice_last n (xs ++ ys)%list = slice_last n ys.
Proof.
  intros H. unfold slice_last.
  rewrite length_app, skipn_app.
  replace (List.length xs + List.length ys - n)
    with (List.length xs + (List.length ys - n)) by lia.
  rewrite skipn_all2 by lia. simpl. f_equal. lia.
Qed.

End SliceFacts.

Module WindowFacts.

Import Dashboard.

Lemma fold_append (samples : list SensorData) :
  forall prev d,
    fold_left append (d :: samples) prev
    = slice_last 100 (prev ++ d :: samples)%list.
Proof.
  induction samples as [| d' samples IH]; intros prev d.
  - reflexivity.
  - change (fold_left append (d :: d' :: samples) prev)
      with (fold_left append (d' :: samples) (append prev d)).
    rewrite IH. unfold append.
    rewrite slice_last_absorb, <- app_assoc. reflexivity.
Qed.

(** Once 100 or more Samples have been appended, nothing of the earlier
    window is left, whatever its size: the window is exactly the last 100
    appended Samples. *)
Theorem window_forgets_earlier (prev samples : list SensorData) :
  100 <= List.length samples ->
  fold_left append samples prev = skipn (List.length samples - 100) samples
  /\ List.length (fold_left append samples prev) = 100.
Proof.
  intros H. destruct samples as [| d samples]; [simpl in H; lia |].
  rewrite fold_append, slice_last_suffix by exact H.
  split; [reflexivity |]. rewrite slice_last_length. lia.
Qed.

Lemma window_forgets_earlier_witness :
  100 <= List.length (repeat freezing 100)
  /\ fold_left append (repeat freezing 100) (repeat (reading null null) 500)
     = skipn (List.length (repeat freezing 100) - 100) (repeat freezing 100).
Proof.
  assert (H : 100 <= List.length (repeat freezing 100))
    by (rewrite repeat_length; apply le_n).
  split.
  - exact H.
  - exact (proj1 (window_forgets_earlier (repeat (reading null null) 500)
                    (repeat freezing 100) H)).
Defined.

End WindowFacts.

Module DashboardFacts.

Import Dashboard.

Section Run.

Variable JSON_parse : string -> option Json.

Lemma chartData_step (st : State) (ev : Event) :
  chartData (step JSON_parse st ev)
  = fold_left append (appended JSON_parse [ev]) (chartData st).
Proof.
  destruct ev as [| m c | |]; try reflexivity.
  unfold step, appended. simpl. unfold on_message.
  destruct (JSON_parse m) as [[| o |] |]; reflexivity.
Qed.

Lemma appended_cons (ev : Event) (evs : list Event) :
  appended JSON_parse (ev :: evs)
  = (appended JSON_parse [ev] ++ appended JSON_parse evs)%list.
Proof.
  unfold appended. simpl. rewrite app_nil_r. reflexivity.
Qed.

(** The window after a run is the fold of [append] over the accepted
    Samples, whatever else happened in between. *)
Lemma chartData_run (evs : list Event) :
  forall st,
    chartData (run JSON_parse evs st)
    = fold_left append (appended JSON_parse evs) (chartData st).
Proof.
  induction evs as [| ev evs IH]; intros st.
  - reflexivity.
  - change (run JSON_parse (ev :: evs) st)
      with (run JSON_parse evs (step JSON_parse st ev)).
    rewrite IH, (appended_cons ev evs), fold_left_app, chartData_step. reflexivity.
Qed.

End Run.

(** C1. Starting from the empty window, after any sequence of events the
    window holds the last 100 accepted Samples in arrival order (all of them
    while there are at most 100), so it never has more than 100 entries; and
    from any earlier window, one or more appends leave exactly the last 100
    entries of the earlier window followed by the appended Samples: the
    entries dropped are the oldest ones. *)
Theorem window_keeps_last_100 :
  forall (JSON_parse : string -> option Json) (evs : list Event),
    chartData (run JSON_parse evs initial)
    = skipn (List.length (appended JSON_parse evs) - 100) (appended JSON_parse evs)
    /\ List.length (chartData (run JSON_parse evs initial))
       = Nat.min 100 (List.length (appended JSON_parse evs))
    /\ List.length (chartData (run JSON_parse evs initial)) <= 100
    /\ forall (prev : list SensorData) (d : SensorData) (samples : list SensorData),
         fold_left append (d :: samples) prev
         = skipn (List.length (prev ++ d :: samples) - 100) (prev ++ d :: samples)%list
         /\ List.length (fold_left append (d :: samples) prev) <= 100.
Proof.
  intros JSON_parse evs.
  assert (Hw : chartData (run JSON_parse evs initial)
               = slice_last 100 (appended JSON_parse evs)).
  { rewrite chartData_run. simpl.
    destruct (appended JSON_parse evs) as [| d samples].
    - reflexivity.
    - apply WindowFacts.fold_append. }
  rewrite Hw, slice_last_length.
  repeat split; try reflexivity; try lia.
  - apply WindowFacts.fold_append.
  - rewrite WindowFacts.fold_append, slice_last_length. lia.
Qed.

(** C5. A message whose payload [JSON.parse] rejects is dropped: the handler
    prints the parse error and returns the state it was given, so the message
    counter, the window, the statistics, the current Sample and the
    connection status are the ones before the message. *)
Theorem malformed_message_dropped :
  forall (JSON_parse : string -> option Json) (payload : string)
         (clock : Clock) (st : State),
    JSON_parse payload = None ->
    on_message JSON_parse payload clock st
    = (st, [console_error "Failed to parse message:"])
    /\ step JSON_parse st (message payload clock) = st.
Proof.
  intros JSON_parse payload clock st H.
  unfold step. simpl. unfold on_message. rewrite H. split; reflexivity.
Qed.

(** C6. The status starts at [connecting]; [connect] sets it to [online],
    [error] and [close] set it to [offline], from any state; and after
    [error] and [close] in either order it is [offline]. *)
Theorem connection_state_machine :
  status initial = connecting
  /\ (forall st, status (fst (on_connect st)) = online)
  /\ (forall st, status (fst (on_error st)) = offline)
  /\ (forall st, status (fst (on_close st)) = offline)
  /\ (forall JSON_parse st, status (run JSON_parse [error; close] st) = offline)
  /\ (forall JSON_parse st, status (run JSON_parse [close; error] st) = offline).
Proof.
  repeat split.
Qed.

(** The bootstrap installs the received [chartData] as the window without
    trimming it, recomputes the statistics from it and installs [current];
    the next accepted message trims the window to its last 100 entries. *)
Theorem seed_is_not_trimmed :
  forall (json : Api.Body) (c : list SensorData) (d : SensorData)
         (st : State) (o : PayloadObject) (clock : Clock),
    Api.chartData json = val c ->
    Api.current json = val d ->
    chartData (fst (fetchHistory (resolved json) st)) = c
    /\ stats (fst (fetchHistory (resolved json) st)) = calculateStats c
    /\ data (fst (fetchHistory (resolved json) st)) = d
    /\ chartData (accept o clock (fst (fetchHistory (resolved json) st)))
       = slice_last 100 (c ++ [newData o clock])%list.
Proof.
  intros json c d st o clock Hc Hd.
  unfold fetchHistory. rewrite Hc, Hd. repeat split.
Qed.

Lemma seed_is_not_trimmed_witness :
  Api.chartData (Route.body (Route.success (repeat freezing 500)))
  = val (rev (repeat freezing 500))
  /\ List.length
       (chartData (fst (fetchHistory
                          (resolved (Route.body (Route.success (repeat freezing 500))))
                          initial)))
     = 500.
Proof.
  split.
  - reflexivity.
  - rewrite (proj1 (seed_is_not_trimmed
                      (Route.body (Route.success (repeat freezing 500)))
                      (rev (repeat freezing 500)) freezing initial no_properties noon
                      eq_refl eq_refl)).
    rewrite length_rev. apply repeat_length.
Defined.

Lemma malformed_message_dropped_witness :
  parse_empty_object "temperature=21" = None
  /\ on_message parse_empty_object "temperature=21" noon
       (run parse_empty_object [connect; message "{}" noon] initial)
     = (run parse_empty_object [connect; message "{}" noon] initial,
        [console_error "Failed to parse message:"]).
Proof.
  split.
  - reflexivity.
  - exact (proj1 (malformed_message_dropped parse_empty_object "temperature=21" noon
                    (run parse_empty_object [connect; message "{}" noon] initial)
                    eq_refl)).
Defined.

End DashboardFacts.

Module RouteFacts.

Import Route.

Section Handler.

Variable INFLUX_BUCKET : string.
Variables toLocaleString toLocaleTimeString : Flux.Time -> string.

(** What the handler does, by the way the query ends. *)
Lemma perform_GET (influx : Flux.Query -> Flux.Run) :
  perform influx (GET INFLUX_BUCKET toLocaleString toLocaleTimeString)
  = match Flux.ending (influx (query INFLUX_BUCKET)) with
    | Flux.complete =>
        (success (map (next toLocaleString toLocaleTimeString)
                      (Flux.rows (influx (query INFLUX_BUCKET)))),
         [query_rows (query INFLUX_BUCKET)])
    | Flux.error =>
        (failure,
         [query_rows (query INFLUX_BUCKET); console_error "InfluxDB error:"])
    end.
Proof.
  unfold GET. simpl.
  destruct (Flux.ending (influx (query INFLUX_BUCKET))); reflexivity.
Qed.

End Handler.

(** C7. Whatever the store answers, the handler runs exactly one query: the
    pipeline over the last six hours ([range(start: -6h)]), sorted by [_time]
    descending, then cut to 500 rows; and when the query completes, the
    [chartData] of the response is the list of converted rows, in the order
    the store streamed them, reversed. *)
Theorem history_query_bounded_and_reversed :
  forall (bucket : string) (f g : Flux.Time -> string)
         (influx : Flux.Query -> Flux.Run),
    queries_issued (snd (perform influx (GET bucket f g))) = [query bucket]
    /\ query bucket
       = [ Flux.from bucket; Flux.range (Flux.hours (-6));
           Flux.filter_measurement "environment";
           Flux.pivot ["_time"] ["_field"] "_value";
           Flux.sort ["_time"] true; Flux.limit 500 ]
    /\ (Flux.ending (influx (query bucket)) = Flux.complete ->
        Api.chartData (body (fst (perform influx (GET bucket f g))))
        = val (rev (map (next f g) (Flux.rows (influx (query bucket)))))).
Proof.
  intros bucket f g influx.
  rewrite perform_GET.
  destruct (Flux.ending (influx (query bucket))); repeat split; intros; try reflexivity.
  discriminate.
Qed.

(** C10. When the query completes without a row, the response is a success
    (status 200, no [error] key) whose [current] is the placeholder, whose
    [history] and [chartData] are empty and whose six statistics are [null];
    and the [history] of every successful response is the first 20 converted
    rows, the newest ones in the query's order, so at most 20. *)
Theorem empty_history_snapshot :
  forall (bucket : string) (f g : Flux.Time -> string)
         (influx : Flux.Query -> Flux.Run),
    Flux.ending (influx (query bucket)) = Flux.complete ->
    (Flux.rows (influx (query bucket)) = [] ->
     fst (perform influx (GET bucket f g))
     = {| status := 200;
          body := {| Api.current :=
                       val {| temperature := null; humidity := null;
                              light_status := val "unknown"; light_value := undefined;
                              timestamp := val "-"; time := undefined |};
                     Api.history := val [];
                     Api.chartData := val [];
                     Api.stats := val {| Stats.temp := Stats.all null;
                                         Stats.humidity := Stats.all null |};
                     Api.error := undefined |} |})
    /\ Api.history (body (fst (perform influx (GET bucket f g))))
       = val (firstn 20 (map (next f g) (Flux.rows (influx (query bucket)))))
    /\ List.length (firstn 20 (map (next f g) (Flux.rows (influx (query bucket))))) <= 20.
Proof.
  intros bucket f g influx Hend.
  rewrite perform_GET, Hend. repeat split.
  - intros Hrows. rewrite Hrows. reflexivity.
  - rewrite length_firstn. lia.
Qed.

(** C8. When the query ends in an error, whatever rows came before it, the
    handler has run the query once, prints the error and answers status 500
    with the body [{ error: 'Failed to fetch data' }] and nothing else.  The
    component that reads this body, or whose request is rejected, makes its
    one request and returns the state it was given: window, statistics and
    current Sample are untouched, and a later message is handled as if the
    bootstrap had not happened. *)
Theorem failed_history_leaves_window :
  forall (bucket : string) (f g : Flux.Time -> string)
         (influx : Flux.Query -> Flux.Run) (st : Dashboard.State),
    Flux.ending (influx (query bucket)) = Flux.error ->
    perform influx (GET bucket f g)
    = ({| status := 500;
          body := {| Api.current := undefined; Api.history := undefined;
                     Api.chartData := undefined; Api.stats := undefined;
                     Api.error := val "Failed to fetch data" |} |},
       [query_rows (query bucket); console_error "InfluxDB error:"])
    /\ Dashboard.fetchHistory
         (Dashboard.resolved (body (fst (perform influx (GET bucket f g))))) st
       = (st, [fetch "/api/sensors"])
    /\ Dashboard.fetchHistory Dashboard.rejected st
       = (st, [fetch "/api/sensors"; console_error "Failed to fetch history:"])
    /\ (forall JSON_parse payload clock,
          Dashboard.on_message JSON_parse payload clock
            (fst (Dashboard.fetchHistory
                    (Dashboard.resolved (body (fst (perform influx (GET bucket f g))))) st))
          = Dashboard.on_message JSON_parse payload clock st).
Proof.
  intros bucket f g influx st Hend.
  rewrite perform_GET, Hend. repeat split.
Qed.

Lemma history_query_bounded_and_reversed_witness :
  Flux.ending (Influx.serve greenhouse (Flux.hours 100) (query "sensors")) = Flux.complete
  /\ Api.chartData
       (body (fst (perform (Influx.serve greenhouse (Flux.hours 100))
                           (GET "sensors" show_hour show_hour))))
     = val (rev (map (next show_hour show_hour)
                     (Flux.rows (Influx.serve greenhouse (Flux.hours 100) (query "sensors"))))).
Proof.
  split.
  - reflexivity.
  - exact (proj2 (proj2 (history_query_bounded_and_reversed "sensors" show_hour show_hour
                           (Influx.serve greenhouse (Flux.hours 100))))
                 eq_refl).
Defined.

Lemma empty_history_snapshot_witness :
  Flux.ending (Influx.serve (fun _ => []) (Flux.hours 100) (query "sensors")) = Flux.complete
  /\ Flux.rows (Influx.serve (fun _ => []) (Flux.hours 100) (query "sensors")) = []
  /\ Api.history
       (body (fst (perform (Influx.serve (fun _ => []) (Flux.hours 100))
                           (GET "sensors" show_hour show_hour))))
     = val (firstn 20 (map (next show_hour show_hour)
                           (Flux.rows (Influx.serve (fun _ => []) (Flux.hours 100)
                                                    (query "sensors"))))).
Proof.
  split; [reflexivity | split; [reflexivity |]].
  exact (proj1 (proj2 (empty_history_snapshot "sensors" show_hour show_hour
                         (Influx.serve (fun _ => []) (Flux.hours 100)) eq_refl))).
Defined.

Lemma failed_history_leaves_window_witness :
  Flux.ending (broken_store (query "sensors")) = Flux.error
  /\ Dashboard.fetchHistory
       (Dashboard.resolved
          (body (fst (perform broken_store (GET "sensors" show_hour show_hour)))))
       Dashboard.initial
     = (Dashboard.initial, [fetch "/api/sensors"]).
Proof.
  split.
  - reflexivity.
  - exact (proj1 (proj2 (failed_history_leaves_window "sensors" show_hour show_hour
                           broken_store Dashboard.initial eq_refl))).
Defined.

End RouteFacts.

(** ** Numbers: [Math.min], [Math.max] and [toFixed] *)

Module NumberFacts.

Example toFixed1_quarter : toFixed1 (div (of_Z 1) (of_Z 4)) = "0.3".
Proof. vm_compute. reflexivity. Qed.

Example toFixed1_below_quarter :
  toFixed1 (div (add (add (add (tenths 4) (tenths 3)) (tenths 2)) (tenths 1)) (of_Z 4))
  = "0.2".
Proof. vm_compute. reflexivity. Qed.

Example toFixed1_negative : toFixed1 (tenths (-219)) = "-21.9".
Proof. vm_compute. reflexivity. Qed.

Example toFixed1_small_negative : toFixed1 (div (of_Z (-4)) (of_Z 100)) = "-0.0".
Proof. vm_compute. reflexivity. Qed.

Example toFixed1_1e21 : toFixed1 (of_Z (10 ^ 21)) = "1e+21".
Proof. vm_compute. reflexivity. Qed.

Example toFixed1_large :
  toFixed1 (of_Z 123456789012345678901234567890) = "1.2345678901234568e+29".
Proof. vm_compute. reflexivity. Qed.

Example Math_min_zeros :
  Math_min [val pos_zero; val neg_zero] = neg_zero
  /\ Math_max [val neg_zero; val pos_zero] = pos_zero
  /\ Math_min [val (of_Z 3); undefined] = NaN.
Proof. repeat split. Qed.

Lemma min_loop_cons (lowest n : number) (rest : list number) :
  min_loop lowest (n :: rest)
  = if is_nan n then NaN else min_loop (min_step lowest n) rest.
Proof.
  unfold min_step. simpl.
  destruct (is_nan n), (is_neg_zero n && is_pos_zero lowest), (ltb n lowest);
    reflexivity.
Qed.

Lemma max_loop_cons (highest n : number) (rest : list number) :
  max_loop highest (n :: rest)
  = if is_nan n then NaN else max_loop (max_step highest n) rest.
Proof.
  unfold max_step. simpl.
  destruct (is_nan n), (is_pos_zero n && is_neg_zero highest), (gtb n highest);
    reflexivity.
Qed.

Ltac compare_cases :=
  repeat match goal with
    | |- context [Z.compare ?a ?b] =>
        destruct (Z.compare_spec a b); subst; cbn;
        rewrite ?Z.compare_refl, ?Pos.compare_cont_refl; cbn
    | |- context [Pos.compare_cont Eq ?a ?b] =>
        change (Pos.compare_cont Eq a b) with (Pos.compare a b);
        destruct (Pos.compare_spec a b); subst; cbn;
        rewrite ?Z.compare_refl, ?Pos.compare_cont_refl; cbn
    end;
  try reflexivity; try lia.

Lemma min_step_comm (lowest x y : number) :
  is_nan x = false -> is_nan y = false ->
  min_step (min_step lowest x) y = min_step (min_step lowest y) x.
Proof.
  unfold min_step, ltb, SFltb.
  destruct lowest as [[|] | [|] | | [|] ml el], x as [[|] | [|] | | [|] mx ex],
    y as [[|] | [|] | | [|] my ey]; intros Hx Hy; try discriminate; cbn;
    try reflexivity; compare_cases.
Qed.

Lemma max_step_comm (highest x y : number) :
  is_nan x = false -> is_nan y = false ->
  max_step (max_step highest x) y = max_step (max_step highest y) x.
Proof.
  unfold max_step, gtb, SFltb.
  destruct highest as [[|] | [|] | | [|] mh eh], x as [[|] | [|] | | [|] mx ex],
    y as [[|] | [|] | | [|] my ey]; intros Hx Hy; try discriminate; cbn;
    try reflexivity; compare_cases.
Qed.

(** The result of the [Math.min] loop depends on the arguments as a
    multiset only. *)
Lemma min_loop_perm (l l' : list number) :
  Permutation l l' -> forall lowest, min_loop lowest l = min_loop lowest l'.
Proof.
  induction 1 as [| x l l' _ IH | x y l | l l' l'' _ IH1 _ IH2]; intros lowest.
  - reflexivity.
  - rewrite !min_loop_cons, IH. reflexivity.
  - rewrite !min_loop_cons.
    destruct (is_nan x) eqn:Hx, (is_nan y) eqn:Hy; try reflexivity.
    rewrite min_step_comm by assumption. reflexivity.
  - rewrite IH1. apply IH2.
Qed.

Lemma max_loop_perm (l l' : list number) :
  Permutation l l' -> forall highest, max_loop highest l = max_loop highest l'.
Proof.
  induction 1 as [| x l l' _ IH | x y l | l l' l'' _ IH1 _ IH2]; intros highest.
  - reflexivity.
  - rewrite !max_loop_cons, IH. reflexivity.
  - rewrite !max_loop_cons.
    destruct (is_nan x) eqn:Hx, (is_nan y) eqn:Hy; try reflexivity.
    rewrite max_step_comm by assumption. reflexivity.
  - rewrite IH1. apply IH2.
Qed.

Lemma Math_min_perm (xs ys : list (Js number)) :
  Permutation xs ys -> Math_min xs = Math_min ys.
Proof.
  intros H. unfold Math_min. apply min_loop_perm, Permutation_map, H.
Qed.

Lemma Math_max_perm (xs ys : list (Js number)) :
  Permutation xs ys -> Math_max xs = Math_max ys.
Proof.
  intros H. unfold Math_max. apply max_loop_perm, Permutation_map, H.
Qed.

(** *** The shape of [toFixed(1)] results *)

Lemma digits_head (n : Z) :
  exists c rest, digits n = String c rest /\ c <> "-"%char.
Proof.
  unfold digits, NilZero.string_of_uint.
  destruct (N.to_uint (Z.to_N n)); simpl;
    eexists; eexists; (split; [reflexivity | discriminate]).
Qed.

Lemma toString_large_head (x : number) (X : Z) :
  exists c rest, toString_large x X = String c rest /\ c <> "-"%char.
Proof.
  unfold toString_large.
  destruct (shortest 17 1 x X (ndigits X)) as [[s k] n].
  destruct (digits_head s) as (c & rest & -> & Hc).
  destruct rest as [| c' rest']; cbn [append]; eauto.
Qed.

(** A result of [toFixed(1)] is ["NaN"], ["Infinity"], or an optional minus
    sign followed by a character that is not a minus sign. *)
Lemma toFixed1_head (x : number) :
  exists c rest,
    (toFixed1 x = String c rest \/ toFixed1 x = String "-" (String c rest))
    /\ c <> "-"%char.
Proof.
  destruct x as [s | [|] | | sgn m e].
  - exists "0"%char, ".0". split; [now left | discriminate].
  - exists "I"%char, "nfinity". split; [now right | discriminate].
  - exists "I"%char, "nfinity". split; [now left | discriminate].
  - exists "N"%char, "aN". split; [now left | discriminate].
  - unfold toFixed1.
    match goal with |- context [if ?b then _ ++ toString_large _ _ else _] => destruct b end.
    + match goal with |- context [toString_large ?a ?b] =>
        destruct (toString_large_head a b) as (c & rest & -> & Hc) end.
      exists c, rest. destruct sgn; cbn [append]; auto.
    + match goal with |- context [digits ?a ++ "." ++ _] =>
        destruct (digits_head a) as (c & rest & -> & Hc) end.
      eexists c, _. destruct sgn; cbn [append]; split; eauto.
Qed.

(** The dash marker is not a result of [toFixed(1)]. *)
Lemma toFixed1_not_dashes (x : number) : toFixed1 x <> "--".
Proof.
  destruct (toFixed1_head x) as (c & rest & [H | H] & Hc); rewrite H;
    intros E; inversion E; congruence.
Qed.

End NumberFacts.

(** ** Statistics *)

Module StatsFacts.

Import NumberFacts.

Lemma filter_perm {A} (f : A -> bool) (l l' : list A) :
  Permutation l l' -> Permutation (filter f l) (filter f l').
Proof.
  induction 1 as [| x l l' _ IH | x y l | l l' l'' _ IH1 _ IH2]; simpl.
  - constructor.
  - destruct (f x); [constructor |]; assumption.
  - destruct (f x), (f y); try apply Permutation_refl. apply perm_swap.
  - eapply Permutation_trans; eassumption.
Qed.

Lemma if_length_perm {A B} (xs ys : list A) (yes yes' no : B) :
  Permutation xs ys -> yes = yes' -> if_length xs yes no = if_length ys yes' no.
Proof.
  intros H <-. destruct xs as [| x xs], ys as [| y ys]; try reflexivity.
  - apply Permutation_nil in H. discriminate.
  - apply Permutation_sym, Permutation_nil in H. discriminate.
Qed.

Lemma temps_perm (d d' : list SensorData) :
  Permutation d d' -> Permutation (Dashboard.temps d) (Dashboard.temps d').
Proof. intros H. apply Permutation_map, filter_perm, H. Qed.

Lemma humids_perm (d d' : list SensorData) :
  Permutation d d' -> Permutation (Dashboard.humids d) (Dashboard.humids d').
Proof. intros H. apply Permutation_map, filter_perm, H. Qed.

Lemma route_temps_perm (d d' : list SensorData) :
  Permutation d d' -> Permutation (Route.temps d) (Route.temps d').
Proof. intros H. apply Permutation_map, filter_perm, H. Qed.

Lemma route_humids_perm (d d' : list SensorData) :
  Permutation d d' -> Permutation (Route.humids d) (Route.humids d').
Proof. intros H. apply Permutation_map, filter_perm, H. Qed.

(** What an empty filtered series means on each side: the component drops
    exactly the [null] values, the route every falsy one. *)
Lemma temps_empty_iff (data : list SensorData) :
  Dashboard.temps data = [] <-> forall r, In r data -> temperature r = null.
Proof.
  unfold Dashboard.temps. induction data as [| r data IH]; simpl.
  - split; [intros _ r [] | reflexivity].
  - destruct (temperature r) eqn:E; simpl; split; intros H;
      try discriminate;
      try (specialize (H r (or_introl eq_refl)); congruence).
    + intros r' [<- | Hin]; [assumption | now apply IH].
    + apply IH. intros r' Hin. apply H. now right.
Qed.

Lemma route_temps_empty_iff (results : list SensorData) :
  Route.temps results = []
  <-> forall r, In r results -> truthy_number (temperature r) = false.
Proof.
  unfold Route.temps. induction results as [| r results IH]; simpl.
  - split; [intros _ r [] | reflexivity].
  - destruct (truthy_number (temperature r)) eqn:E; simpl; split; intros H;
      try discriminate.
    + specialize (H r (or_introl eq_refl)). congruence.
    + intros r' [<- | Hin]; [assumption | now apply IH].
    + apply IH. intros r' Hin. apply H. now right.
Qed.

Lemma reduce_add_map (xs : list (Js number)) :
  forall z, fold_left (fun a b => add a (ToNumber b)) xs z
            = fold_left add (map ToNumber xs) z.
Proof.
  induction xs as [| x xs IH]; simpl; intros z; [reflexivity | apply IH].
Qed.

(** The three fields computed from a filtered series are the
    specification's statistics of the numbers the series coerces to. *)
Lemma metric_of_series {A} (no_data : A) (render : string -> A) (xs : list (Js number)) :
  {| Stats.min := if_length xs (render (toFixed1 (Math_min xs))) no_data;
     Stats.max := if_length xs (render (toFixed1 (Math_max xs))) no_data;
     Stats.avg := if_length xs
                    (render (toFixed1 (div (reduce_add xs) (of_nat (List.length xs)))))
                    no_data |}
  = spec_metric no_data render (map ToNumber xs).
Proof.
  unfold Math_min, Math_max, reduce_add. rewrite reduce_add_map.
  rewrite <- (length_map ToNumber xs).
  destruct xs as [| x xs]; reflexivity.
Qed.

(** The component's filter keeps the present values when no key is missing. *)
Lemma not_null_series (metric : SensorData -> Js number) (data : list SensorData) :
  (forall r, In r data -> metric r <> undefined) ->
  map ToNumber (map metric (filter (fun r => not_null (metric r)) data))
  = present_values metric data.
Proof.
  induction data as [| r data IH]; simpl; intros H; [reflexivity |].
  assert (Hr := H r (or_introl eq_refl)).
  rewrite <- IH by (intros r' Hr'; apply H; now right).
  destruct (metric r) eqn:E; simpl; try rewrite E; try reflexivity.
  congruence.
Qed.

(** The route's filter keeps the present values when none is 0 or NaN. *)
Lemma truthy_series (metric : SensorData -> Js number) (data : list SensorData) :
  (forall r x, In r data -> metric r = val x -> Number.truthy x = true) ->
  map ToNumber (map metric (filter (fun r => truthy_number (metric r)) data))
  = present_values metric data.
Proof.
  induction data as [| r data IH]; simpl; intros H; [reflexivity |].
  rewrite <- IH by (intros r' x Hr'; apply H; now right).
  destruct (metric r) as [| | x] eqn:E; simpl; try reflexivity.
  rewrite (H r x (or_introl eq_refl) E). simpl. rewrite E. reflexivity.
Qed.

(** On Samples whose metrics are numbers or [null], the component's
    statistics are the specification's; on Samples whose metrics are absent
    or numbers other than 0 and NaN, so are the route's. *)
Theorem stats_refine_spec :
  forall data : list SensorData,
    ((forall r, In r data -> temperature r <> undefined) ->
     Stats.temp (Dashboard.calculateStats data)
     = spec_metric "--" (fun s => s) (present_values temperature data))
    /\ ((forall r, In r data -> humidity r <> undefined) ->
        Stats.humidity (Dashboard.calculateStats data)
        = spec_metric "--" (fun s => s) (present_values humidity data))
    /\ ((forall r x, In r data -> temperature r = val x -> Number.truthy x = true) ->
        Stats.temp (Route.stats data)
        = spec_metric null val (present_values temperature data))
    /\ ((forall r x, In r data -> humidity r = val x -> Number.truthy x = true) ->
        Stats.humidity (Route.stats data)
        = spec_metric null val (present_values humidity data)).
Proof.
  intros data. repeat split; intros H.
  - rewrite <- (not_null_series temperature data H). apply (metric_of_series "--" (fun s => s)).
  - rewrite <- (not_null_series humidity data H). apply (metric_of_series "--" (fun s => s)).
  - rewrite <- (truthy_series temperature data H). apply (metric_of_series null val).
  - rewrite <- (truthy_series humidity data H). apply (metric_of_series null val).
Qed.

Lemma stats_refine_spec_witness :
  (forall r, In r afternoon -> temperature r <> undefined)
  /\ Stats.temp (Dashboard.calculateStats afternoon)
     = spec_metric "--" (fun s => s) (present_values temperature afternoon).
Proof.
  assert (H : forall r, In r afternoon -> temperature r <> undefined).
  { intros r [<- | [<- | [<- | [<- | []]]]]; discriminate. }
  split.
  - exact H.
  - exact (proj1 (stats_refine_spec afternoon) H).
Defined.

(** When the series a filter leaves is empty, the three fields are the
    no-data marker: the dash marker in the component, [null] in the route.
    The marker is not a number's rendering: no call of [toFixed(1)] returns
    the dash marker (in particular not the renderings of 0 and of NaN), and
    [null] is not a string. *)
Theorem empty_series_reports_no_data :
  (forall data,
      Dashboard.temps data = [] ->
      Stats.temp (Dashboard.calculateStats data) = Stats.all "--")
  /\ (forall data,
        Dashboard.humids data = [] ->
        Stats.humidity (Dashboard.calculateStats data) = Stats.all "--")
  /\ (forall results,
        Route.temps results = [] ->
        Stats.temp (Route.stats results) = Stats.all null)
  /\ (forall results,
        Route.humids results = [] ->
        Stats.humidity (Route.stats results) = Stats.all null)
  /\ (forall x, toFixed1 x <> "--")
  /\ (forall x, val (toFixed1 x) <> null)
  /\ toFixed1 pos_zero = "0.0" /\ toFixed1 NaN = "NaN".
Proof.
  repeat split.
  - intros data H. unfold Dashboard.calculateStats. rewrite H. reflexivity.
  - intros data H. unfold Dashboard.calculateStats. rewrite H. reflexivity.
  - intros results H. unfold Route.stats. rewrite H. reflexivity.
  - intros results H. unfold Route.stats. rewrite H. reflexivity.
  - apply toFixed1_not_dashes.
  - discriminate.
Qed.

(** C9, as amended. For every sequence of Samples and every permutation of
    it, the minimum and the maximum of each metric are the same, in the
    component and in the route. *)
Theorem extrema_order_independent :
  forall d d' : list SensorData,
    Permutation d d' ->
    (Stats.min (Stats.temp (Dashboard.calculateStats d))
     = Stats.min (Stats.temp (Dashboard.calculateStats d'))
     /\ Stats.max (Stats.temp (Dashboard.calculateStats d))
        = Stats.max (Stats.temp (Dashboard.calculateStats d'))
     /\ Stats.min (Stats.humidity (Dashboard.calculateStats d))
        = Stats.min (Stats.humidity (Dashboard.calculateStats d'))
     /\ Stats.max (Stats.humidity (Dashboard.calculateStats d))
        = Stats.max (Stats.humidity (Dashboard.calculateStats d')))
    /\ (Stats.min (Stats.temp (Route.stats d)) = Stats.min (Stats.temp (Route.stats d'))
        /\ Stats.max (Stats.temp (Route.stats d)) = Stats.max (Stats.temp (Route.stats d'))
        /\ Stats.min (Stats.humidity (Route.stats d))
           = Stats.min (Stats.humidity (Route.stats d'))
        /\ Stats.max (Stats.humidity (Route.stats d))
           = Stats.max (Stats.humidity (Route.stats d'))).
Proof.
  intros d d' H.
  pose proof (temps_perm d d' H) as Ht.
  pose proof (humids_perm d d' H) as Hh.
  pose proof (route_temps_perm d d' H) as Hrt.
  pose proof (route_humids_perm d d' H) as Hrh.
  unfold Dashboard.calculateStats, Route.stats; cbn [Stats.min Stats.max Stats.temp Stats.humidity].
  repeat split; apply if_length_perm; trivial;
    first [ rewrite (Math_min_perm _ _ Ht) | rewrite (Math_max_perm _ _ Ht)
          | rewrite (Math_min_perm _ _ Hh) | rewrite (Math_max_perm _ _ Hh)
          | rewrite (Math_min_perm _ _ Hrt) | rewrite (Math_max_perm _ _ Hrt)
          | rewrite (Math_min_perm _ _ Hrh) | rewrite (Math_max_perm _ _ Hrh) ];
    reflexivity.
Qed.

(** C9, the claim as stated fails for the average: the four readings
    21.9, 28.2, 25.6, 26.1 give the average 25.4, and with the second and
    third exchanged they give 25.5, in the component and in the route. *)
Lemma average_depends_on_order :
  Permutation afternoon afternoon_swapped
  /\ Stats.avg (Stats.temp (Dashboard.calculateStats afternoon)) = "25.4"
  /\ Stats.avg (Stats.temp (Dashboard.calculateStats afternoon_swapped)) = "25.5"
  /\ Stats.avg (Stats.temp (Route.stats afternoon)) = val "25.4"
  /\ Stats.avg (Stats.temp (Route.stats afternoon_swapped)) = val "25.5".
Proof.
  split.
  - unfold afternoon, afternoon_swapped. simpl map.
    apply perm_skip, perm_swap.
  - repeat split; vm_compute; reflexivity.
Qed.

Lemma extrema_order_independent_witness :
  Permutation afternoon afternoon_swapped
  /\ Stats.min (Stats.temp (Dashboard.calculateStats afternoon))
     = Stats.min (Stats.temp (Dashboard.calculateStats afternoon_swapped)).
Proof.
  assert (H : Permutation afternoon afternoon_swapped).
  { unfold afternoon, afternoon_swapped. simpl map. apply perm_skip, perm_swap. }
  split.
  - exact H.
  - exact (proj1 (proj1 (extrema_order_independent afternoon afternoon_swapped H))).
Defined.

Lemma empty_series_reports_no_data_witness :
  (Dashboard.temps [reading null null] = []
   /\ Stats.temp (Dashboard.calculateStats [reading null null]) = Stats.all "--")
  /\ (Route.humids [reading null undefined] = []
      /\ Stats.humidity (Route.stats [reading null undefined]) = Stats.all null).
Proof.
  split; (split; [reflexivity |]).
  - exact (proj1 empty_series_reports_no_data [reading null null] eq_refl).
  - exact (proj1 (proj2 (proj2 (proj2 empty_series_reports_no_data)))
             [reading null undefined] eq_refl).
Defined.

(** C2, at a reading of 0 degrees and 0 percent: the route's filter drops
    the value, so its statistics are [null], where the specification's
    statistics and the component's are 0.0; and the component keeps a metric
    whose key is missing, so its statistics there are NaN, where the
    specification has no data. *)
Theorem route_stats_drop_zero :
  Route.stats [freezing]
  = {| Stats.temp := Stats.all null; Stats.humidity := Stats.all null |}
  /\ spec_metric null val (present_values temperature [freezing]) = Stats.all (val "0.0")
  /\ Dashboard.calculateStats [freezing]
     = {| Stats.temp := Stats.all "0.0"; Stats.humidity := Stats.all "0.0" |}
  /\ Stats.temp (Dashboard.calculateStats [reading undefined null]) = Stats.all "NaN"
  /\ spec_metric "--" (fun s => s) (present_values temperature [reading undefined null])
     = Stats.all "--".
Proof.
  repeat split; vm_compute; reflexivity.
Qed.

(** C4, at a Sample sent without its temperature and humidity keys: no
    value of either metric is present, so the specification's statistics are
    the no-data marker, and the route's are [null]; but the component's
    filter keeps the missing values, and its three fields are NaN for both
    metrics.  The handler brings the component there from its initial state
    with the message [{}]. *)
Theorem missing_key_reports_nan :
  present_values temperature [light_only] = []
  /\ present_values humidity [light_only] = []
  /\ spec_metric "--" (fun s => s) (present_values temperature [light_only])
     = Stats.all "--"
  /\ Dashboard.temps [light_only] = [undefined]
  /\ Dashboard.calculateStats [light_only]
     = {| Stats.temp := Stats.all "NaN"; Stats.humidity := Stats.all "NaN" |}
  /\ Dashboard.stats
       (Dashboard.run parse_empty_object [Dashboard.message "{}" noon] Dashboard.initial)
     = {| Stats.temp := Stats.all "NaN"; Stats.humidity := Stats.all "NaN" |}
  /\ Route.stats [light_only]
     = {| Stats.temp := Stats.all null; Stats.humidity := Stats.all null |}.
Proof.
  repeat split; vm_compute; reflexivity.
Qed.

End StatsFacts.

(** ** Normalization of the light status *)

Module LightFacts.

Lemma strict_eq_zero_is_zero (x : number) :
  strict_eq_zero (val x) = is_zero x.
Proof. destruct x as [[|] | [|] | | [|] m e]; reflexivity. Qed.

Lemma or_else_falsy (v : Js string) (d : string) :
  truthy_string v = false -> or_else v d = d.
Proof.
  destruct v as [| | s]; simpl; try reflexivity.
  destruct (String.eqb s ""); [reflexivity | discriminate].
Qed.

(** C3, the claim as stated fails: a payload with no light field at all is
    normalized by the message handler to [bright], not to [unknown]; and a
    row without [light_status] whose [light_value] is 0 is normalized by the
    route to [unknown], not to [dark]. *)
Lemma light_status_not_as_claimed :
  light_status (Dashboard.newData Dashboard.no_properties noon) = val "bright"
  /\ light_status (Dashboard.newData Dashboard.no_properties noon) <> val "unknown"
  /\ strict_eq_zero (Flux.light_value dark_row) = true
  /\ Flux.light_status dark_row = undefined
  /\ light_status (Route.next (fun _ => "-") (fun _ => "-") dark_row) = val "unknown"
  /\ light_status (Route.next (fun _ => "-") (fun _ => "-") dark_row) <> val "dark".
Proof.
  repeat split; discriminate.
Qed.

(** C3, as amended. In the message handler, a payload whose [light_status]
    is missing (or [null], or empty) gets [dark] when its [light_value] is
    the number 0 and [bright] in every other case, a missing [light_value]
    included.  In the route, a row whose [light_status] is missing (or
    [null], or empty) gets [unknown], whatever its [light_value]. *)
Theorem light_status_normalization :
  (forall (o : Dashboard.PayloadObject) (clock : Dashboard.Clock),
      truthy_string (Dashboard.p_light_status o) = false ->
      (forall x, Dashboard.p_light_value o = val x -> is_zero x = true ->
                 light_status (Dashboard.newData o clock) = val "dark")
      /\ (forall x, Dashboard.p_light_value o = val x -> is_zero x = false ->
                    light_status (Dashboard.newData o clock) = val "bright")
      /\ (Dashboard.p_light_value o = undefined \/ Dashboard.p_light_value o = null ->
          light_status (Dashboard.newData o clock) = val "bright"))
  /\ (forall (f g : Flux.Time -> string) (row : Flux.Row),
        truthy_string (Flux.light_status row) = false ->
        light_status (Route.next f g row) = val "unknown").
Proof.
  split.
  - intros o clock H. unfold Dashboard.newData; cbn [light_status].
    rewrite (or_else_falsy _ _ H). repeat split.
    + intros x -> Hz. rewrite strict_eq_zero_is_zero, Hz. reflexivity.
    + intros x -> Hz. rewrite strict_eq_zero_is_zero, Hz. reflexivity.
    + intros [-> | ->]; reflexivity.
  - intros f g row H. unfold Route.next; cbn [light_status].
    rewrite (or_else_falsy _ _ H). reflexivity.
Qed.

Lemma light_status_normalization_witness :
  (truthy_string (Dashboard.p_light_status dark_payload) = false
   /\ light_status (Dashboard.newData dark_payload noon) = val "dark")
  /\ (truthy_string (Dashboard.p_light_status bright_payload) = false
      /\ light_status (Dashboard.newData bright_payload noon) = val "bright")
  /\ (truthy_string (Flux.light_status dark_row) = false
      /\ light_status (Route.next (fun _ => "-") (fun _ => "-") dark_row) = val "unknown").
Proof.
  split; [| split]; (split; [reflexivity |]).
  - exact (proj1 (proj1 light_status_normalization dark_payload noon eq_refl)
             (of_Z 0) eq_refl eq_refl).
  - exact (proj1 (proj2 (proj1 light_status_normalization bright_payload noon eq_refl))
             (of_Z 1) eq_refl eq_refl).
  - exact (proj2 light_status_normalization (fun _ => "-") (fun _ => "-") dark_row eq_refl).
Defined.

End LightFacts.

(** ** The component over its lifetime *)

Module LifecycleFacts.

Import Dashboard Lifecycle.

Section Lifetime.

Variable JSON_parse : string -> option Json.

(** A message leaves the status alone; a connection event leaves everything
    else alone. *)
Lemma status_step_message (st : State) (m : string) (c : Clock) :
  status (step JSON_parse st (message m c)) = status st.
Proof.
  unfold step. simpl. unfold on_message.
  destruct (JSON_parse m) as [[| o |] |]; reflexivity.
Qed.

Lemma appended_connection (ev : Event) :
  is_message ev = false -> appended JSON_parse [ev] = [].
Proof. destruct ev; simpl; intros H; try discriminate; reflexivity. Qed.

Lemma messageCount_step (st : State) (ev : Event) :
  messageCount (step JSON_parse st ev)
  = messageCount st + List.length (appended JSON_parse [ev]).
Proof.
  destruct ev as [| m c | |]; simpl; try lia.
  unfold step, appended. simpl. unfold on_message.
  destruct (JSON_parse m) as [[| o |] |]; simpl; lia.
Qed.

Lemma data_step (st : State) (ev : Event) :
  data (step JSON_parse st ev) = last (appended JSON_parse [ev]) (data st).
Proof.
  destruct ev as [| m c | |]; simpl; try reflexivity.
  unfold step, appended. simpl. unfold on_message.
  destruct (JSON_parse m) as [[| o |] |]; reflexivity.
Qed.

Lemma last_default {A} (l : list A) (a x : A) : last (a :: l) x = last l a.
Proof.
  revert a x. induction l as [| b l IH]; intros a x; [reflexivity |].
  change (last (a :: b :: l) x) with (last (b :: l) x).
  rewrite !IH. reflexivity.
Qed.

Lemma last_app_default {A} (l l' : list A) (x : A) :
  last (l ++ l')%list x = last l' (last l x).
Proof.
  revert x. induction l as [| a l IH]; intros x; [reflexivity |].
  simpl app. rewrite !last_default. apply IH.
Qed.

Lemma last_slice_last {A} (n : nat) (l : list A) (x : A) :
  1 <= n -> last (slice_last n l) x = last l x.
Proof.
  intros Hn. unfold slice_last.
  set (k := List.length l - n).
  transitivity (last (firstn k l ++ skipn k l)%list x);
    [| now rewrite firstn_skipn].
  rewrite last_app_default.
  destruct (skipn k l) as [| a t] eqn:E.
  - assert (Hl : List.length (skipn k l) = 0) by (rewrite E; reflexivity).
    rewrite length_skipn in Hl.
    assert (l = [])
      by (destruct l; [reflexivity | unfold k in Hl; cbn [List.length] in Hl; lia]).
    subst l. destruct k; reflexivity.
  - rewrite !last_default. reflexivity.
Qed.

Lemma messageCount_run (evs : list Event) :
  forall st, messageCount (run JSON_parse evs st)
             = messageCount st + List.length (appended JSON_parse evs).
Proof.
  induction evs as [| ev evs IH]; intros st.
  - simpl. lia.
  - change (run JSON_parse (ev :: evs) st)
      with (run JSON_parse evs (step JSON_parse st ev)).
    rewrite IH, messageCount_step, (DashboardFacts.appended_cons JSON_parse ev evs).
    rewrite length_app. lia.
Qed.

(** The counter is the number of accepted messages: dropped messages and
    connection events do not count.  Without a bootstrap the window holds as
    many entries as the counter says, up to 100. *)
Theorem counter_counts_accepted (evs : list Event) (st : State) :
  messageCount (run JSON_parse evs st)
  = messageCount st + List.length (appended JSON_parse evs)
  /\ List.length (chartData (run JSON_parse evs initial))
     = Nat.min 100 (messageCount (run JSON_parse evs initial)).
Proof.
  split; [apply messageCount_run |].
  rewrite messageCount_run, DashboardFacts.chartData_run. simpl.
  destruct (appended JSON_parse evs) as [| a l]; [reflexivity |].
  rewrite WindowFacts.fold_append, slice_last_length. reflexivity.
Qed.

Lemma data_run (evs : list Event) :
  forall st, data (run JSON_parse evs st) = last (appended JSON_parse evs) (data st).
Proof.
  induction evs as [| ev evs IH]; intros st; [reflexivity |].
  change (run JSON_parse (ev :: evs) st)
    with (run JSON_parse evs (step JSON_parse st ev)).
  rewrite IH, data_step, (DashboardFacts.appended_cons JSON_parse ev evs).
  rewrite last_app_default. reflexivity.
Qed.

(** Once a message has been accepted the window is not empty and its last
    entry is the newest accepted Sample. *)
Lemma window_last_run (evs : list Event) (st : State) :
  appended JSON_parse evs <> [] ->
  chartData (run JSON_parse evs st) <> []
  /\ forall d, last (chartData (run JSON_parse evs st)) d
               = last (appended JSON_parse evs) (data st).
Proof.
  intros Hne. rewrite DashboardFacts.chartData_run.
  destruct (appended JSON_parse evs) as [| a l]; [congruence |].
  rewrite WindowFacts.fold_append. split.
  - intros E. apply (f_equal (@List.length _)) in E.
    rewrite slice_last_length, length_app in E. cbn [List.length] in E. lia.
  - intros d. rewrite last_slice_last by lia.
    rewrite last_app_default, !last_default. reflexivity.
Qed.

(** The current Sample is the newest accepted one, and once a message has
    been accepted it is the last entry of the window. *)
Theorem current_is_newest (evs : list Event) (st : State) :
  data (run JSON_parse evs st) = last (appended JSON_parse evs) (data st)
  /\ (appended JSON_parse evs <> [] ->
      forall d, last (chartData (run JSON_parse evs st)) d = data (run JSON_parse evs st)).
Proof.
  split; [apply data_run |].
  intros Hne d. rewrite data_run. apply window_last_run, Hne.
Qed.

(** An accepted message sets the statistics to those of the window it
    leaves; any other event leaves both as they were. *)
Lemma stats_step (st : State) (ev : Event) :
  (appended JSON_parse [ev] <> [] ->
   stats (step JSON_parse st ev) = calculateStats (chartData (step JSON_parse st ev)))
  /\ (appended JSON_parse [ev] = [] ->
      stats (step JSON_parse st ev) = stats st
      /\ chartData (step JSON_parse st ev) = chartData st).
Proof.
  destruct ev as [| m c | |]; simpl; try (split; [congruence | split; reflexivity]).
  unfold step, appended. simpl. unfold on_message.
  destruct (JSON_parse m) as [[| o |] |]; simpl;
    (split;
     [ intros H; try reflexivity; now destruct H
     | intros H; try discriminate; split; reflexivity ]).
Qed.

Lemma stats_run (evs : list Event) :
  forall st,
    stats st = calculateStats (chartData st) \/ appended JSON_parse evs <> [] ->
    stats (run JSON_parse evs st) = calculateStats (chartData (run JSON_parse evs st)).
Proof.
  induction evs as [| ev evs IH]; intros st H.
  - destruct H as [H | H]; [exact H | exfalso; apply H; reflexivity].
  - change (run JSON_parse (ev :: evs) st)
      with (run JSON_parse evs (step JSON_parse st ev)).
    apply IH. destruct (stats_step st ev) as [Hacc Hdrop].
    destruct (appended JSON_parse [ev]) as [| d l] eqn:E.
    + destruct (Hdrop eq_refl) as [Hs Hc]. rewrite Hs, Hc.
      rewrite (DashboardFacts.appended_cons JSON_parse ev evs), E in H. exact H.
    + left. apply Hacc. discriminate.
Qed.

(** The statistics shown are those of the window shown, after any run of
    MQTT events: from a state in which they are (the initial state is one),
    and from any state at all once a message has been accepted. *)
Theorem stats_follow_window (evs : list Event) (st : State) :
  (stats st = calculateStats (chartData st) ->
   stats (run JSON_parse evs st) = calculateStats (chartData (run JSON_parse evs st)))
  /\ (appended JSON_parse evs <> [] ->
      stats (run JSON_parse evs st)
      = calculateStats (chartData (run JSON_parse evs st))).
Proof.
  split; intros H; apply stats_run; [left | right]; exact H.
Qed.

Lemma status_run_connection (evs : list Event) :
  forall st st',
    status st = status st' ->
    status (run JSON_parse evs st)
    = status (run JSON_parse (filter is_connection evs) st').
Proof.
  induction evs as [| ev evs IH]; intros s s' H; [exact H |].
  destruct ev as [| m c | |]; simpl; apply IH; try reflexivity.
  rewrite status_step_message. exact H.
Qed.

Lemma window_run_messages (evs : list Event) :
  forall st st',
    (data st, chartData st, stats st, messageCount st)
    = (data st', chartData st', stats st', messageCount st') ->
    (data (run JSON_parse evs st), chartData (run JSON_parse evs st),
     stats (run JSON_parse evs st), messageCount (run JSON_parse evs st))
    = (data (run JSON_parse (filter is_message evs) st'),
       chartData (run JSON_parse (filter is_message evs) st'),
       stats (run JSON_parse (filter is_message evs) st'),
       messageCount (run JSON_parse (filter is_message evs) st')).
Proof.
  induction evs as [| ev evs IH]; intros s s' H; [exact H |].
  destruct ev as [| m c | |]; simpl; apply IH; try exact H.
  unfold step. simpl. unfold on_message.
  destruct (JSON_parse m) as [[| o |] |]; simpl; try exact H;
    inversion H as [[Hd Hc Hs Hm]]; unfold accept; simpl; rewrite Hc, Hm; reflexivity.
Qed.

(** Connection and messages do not interfere: the status after a run is the
    status after its connection events alone, and the window, the counter,
    the current Sample and the statistics are those after its messages
    alone.  In particular a message is accepted whatever the status is. *)
Theorem connection_and_messages_independent (evs : list Event) (st : State) :
  status (run JSON_parse evs st)
  = status (run JSON_parse (filter is_connection evs) st)
  /\ chartData (run JSON_parse evs st)
     = chartData (run JSON_parse (filter is_message evs) st)
  /\ messageCount (run JSON_parse evs st)
     = messageCount (run JSON_parse (filter is_message evs) st)
  /\ data (run JSON_parse evs st)
     = data (run JSON_parse (filter is_message evs) st)
  /\ stats (run JSON_parse evs st)
     = stats (run JSON_parse (filter is_message evs) st).
Proof.
  pose proof (window_run_messages evs st st eq_refl) as W.
  inversion W as [[Hd Hc Hs Hm]].
  repeat split; try assumption.
  apply status_run_connection. reflexivity.
Qed.

End Lifetime.

Lemma stats_follow_window_witness :
  stats initial = calculateStats (chartData initial)
  /\ stats (run parse_empty_object [connect; message "{}" noon; close] initial)
     = calculateStats
         (chartData (run parse_empty_object [connect; message "{}" noon; close] initial)).
Proof.
  split; [reflexivity |].
  exact (proj1 (stats_follow_window parse_empty_object
                  [connect; message "{}" noon; close] initial)
           eq_refl).
Defined.

Lemma current_is_newest_witness :
  appended parse_empty_object [connect; message "{}" noon; message "21" noon] <> []
  /\ last (chartData (run parse_empty_object
                        [connect; message "{}" noon; message "21" noon] initial))
          freezing
     = data (run parse_empty_object
               [connect; message "{}" noon; message "21" noon] initial).
Proof.
  assert (H : appended parse_empty_object
                [connect; message "{}" noon; message "21" noon] <> [])
    by discriminate.
  split.
  - exact H.
  - exact (proj2 (current_is_newest parse_empty_object
                    [connect; message "{}" noon; message "21" noon] initial)
             H freezing).
Defined.

End LifecycleFacts.

(** ** The extrema are readings *)

Module ExtremaFacts.

Import NumberFacts.

(** Not being below is transitive through a number that is not [NaN]. *)
Lemma not_below_trans (a b c : number) :
  is_nan b = false -> ltb b a = false -> ltb c b = false -> ltb c a = false.
Proof.
  intros Hb H1 H2.
  destruct (ltb c a) eqn:H3; [| reflexivity].
  exfalso. revert Hb H1 H2 H3. unfold ltb, SFltb.
  destruct a as [[|] | [|] | | [|] ma ea], b as [[|] | [|] | | [|] mb eb],
    c as [[|] | [|] | | [|] mc ec]; cbn; try discriminate;
    repeat match goal with
      | |- context [Z.compare ?x ?y] =>
          destruct (Z.compare_spec x y); subst; cbn;
          rewrite ?Z.compare_refl, ?Pos.compare_cont_refl; cbn
      | |- context [Pos.compare_cont Eq ?x ?y] =>
          change (Pos.compare_cont Eq x y) with (Pos.compare x y);
          destruct (Pos.compare_spec x y); subst; cbn;
          rewrite ?Z.compare_refl, ?Pos.compare_cont_refl; cbn
      end;
    try discriminate; intros; lia.
Qed.

Lemma min_step_choice (lowest n : number) :
  min_step lowest n = lowest \/ min_step lowest n = n.
Proof.
  unfold min_step.
  destruct (is_neg_zero n && is_pos_zero lowest) eqn:E.
  - right. destruct n as [[|] | | |]; try discriminate. reflexivity.
  - destruct (ltb n lowest); auto.
Qed.

Lemma min_step_below (lowest n : number) :
  ltb lowest (min_step lowest n) = false /\ ltb n (min_step lowest n) = false.
Proof.
  unfold min_step, ltb, SFltb.
  destruct lowest as [[|] | [|] | | [|] ml el], n as [[|] | [|] | | [|] mn en];
    cbn; auto; compare_cases; cbn; rewrite ?Z.compare_refl, ?Pos.compare_cont_refl;
    auto; compare_cases; auto.
Qed.

Lemma max_step_choice (highest n : number) :
  max_step highest n = highest \/ max_step highest n = n.
Proof.
  unfold max_step.
  destruct (is_pos_zero n && is_neg_zero highest) eqn:E.
  - right. destruct n as [[|] | | |]; try discriminate. reflexivity.
  - destruct (gtb n highest); auto.
Qed.

Lemma max_step_above (highest n : number) :
  ltb (max_step highest n) highest = false /\ ltb (max_step highest n) n = false.
Proof.
  unfold max_step, gtb, ltb, SFltb.
  destruct highest as [[|] | [|] | | [|] mh eh], n as [[|] | [|] | | [|] mn en];
    cbn; auto; compare_cases; cbn; rewrite ?Z.compare_refl, ?Pos.compare_cont_refl;
    auto; compare_cases; auto.
Qed.

Lemma min_step_not_nan (lowest n : number) :
  is_nan lowest = false -> is_nan n = false -> is_nan (min_step lowest n) = false.
Proof.
  intros Hl Hn. destruct (min_step_choice lowest n) as [-> | ->]; assumption.
Qed.

Lemma max_step_not_nan (highest n : number) :
  is_nan highest = false -> is_nan n = false -> is_nan (max_step highest n) = false.
Proof.
  intros Hl Hn. destruct (max_step_choice highest n) as [-> | ->]; assumption.
Qed.

(** The result of the [Math.min] loop over numbers none of which is [NaN]
    is the start value or one of the numbers, and none of them is below it. *)
Lemma min_loop_least (l : list number) :
  forall lowest,
    is_nan lowest = false ->
    (forall x, In x l -> is_nan x = false) ->
    (min_loop lowest l = lowest \/ In (min_loop lowest l) l)
    /\ is_nan (min_loop lowest l) = false
    /\ ltb lowest (min_loop lowest l) = false
    /\ (forall x, In x l -> ltb x (min_loop lowest l) = false).
Proof.
  induction l as [| n l IH]; intros lowest Hl Hall.
  - simpl. repeat split; auto.
    + destruct lowest as [[|] | [|] | | [|] m e]; try discriminate; try reflexivity;
        unfold ltb, SFltb; cbn; rewrite Z.compare_refl, Pos.compare_cont_refl; reflexivity.
    + intros x [].
  - rewrite min_loop_cons, (Hall n (or_introl eq_refl)).
    assert (Hn : is_nan n = false) by (apply Hall; now left).
    destruct (IH (min_step lowest n) (min_step_not_nan _ _ Hl Hn)
                (fun x Hx => Hall x (or_intror Hx))) as (Hin & Hnan & Hlo & Hle).
    destruct (min_step_below lowest n) as [Hb1 Hb2].
    pose proof (min_step_not_nan _ _ Hl Hn) as Hs.
    repeat split.
    + destruct Hin as [-> | Hin]; [| right; now right].
      destruct (min_step_choice lowest n) as [-> | ->]; [now left | right; now left].
    + exact Hnan.
    + exact (not_below_trans _ _ _ Hs Hlo Hb1).
    + intros x [<- | Hx]; [exact (not_below_trans _ _ _ Hs Hlo Hb2) | apply Hle, Hx].
Qed.

Lemma max_loop_greatest (l : list number) :
  forall highest,
    is_nan highest = false ->
    (forall x, In x l -> is_nan x = false) ->
    (max_loop highest l = highest \/ In (max_loop highest l) l)
    /\ is_nan (max_loop highest l) = false
    /\ ltb (max_loop highest l) highest = false
    /\ (forall x, In x l -> ltb (max_loop highest l) x = false).
Proof.
  induction l as [| n l IH]; intros highest Hl Hall.
  - simpl. repeat split; auto.
    + destruct highest as [[|] | [|] | | [|] m e]; try discriminate; try reflexivity;
        unfold ltb, SFltb; cbn; rewrite Z.compare_refl, Pos.compare_cont_refl; reflexivity.
    + intros x [].
  - rewrite max_loop_cons, (Hall n (or_introl eq_refl)).
    assert (Hn : is_nan n = false) by (apply Hall; now left).
    destruct (IH (max_step highest n) (max_step_not_nan _ _ Hl Hn)
                (fun x Hx => Hall x (or_intror Hx))) as (Hin & Hnan & Hhi & Hge).
    destruct (max_step_above highest n) as [Hb1 Hb2].
    pose proof (max_step_not_nan _ _ Hl Hn) as Hs.
    repeat split.
    + destruct Hin as [-> | Hin]; [| right; now right].
      destruct (max_step_choice highest n) as [-> | ->]; [now left | right; now left].
    + exact Hnan.
    + exact (not_below_trans _ _ _ Hs Hb1 Hhi).
    + intros x [<- | Hx]; [exact (not_below_trans _ _ _ Hs Hb2 Hhi) | apply Hge, Hx].
Qed.

Lemma not_below_infinity (n : number) :
  is_nan n = false -> ltb n pos_infinity = false -> n = pos_infinity.
Proof.
  destruct n as [[|] | [|] | | [|] m e]; unfold ltb, SFltb; cbn; intros;
    try discriminate; reflexivity.
Qed.

Lemma not_above_infinity (n : number) :
  is_nan n = false -> ltb neg_infinity n = false -> n = neg_infinity.
Proof.
  destruct n as [[|] | [|] | | [|] m e]; unfold ltb, SFltb; cbn; intros;
    try discriminate; reflexivity.
Qed.

(** Over a series that is not empty and holds numbers only, none of them
    [NaN], [Math.min] and [Math.max] return members of the series, with no
    member below the one or above the other. *)
Lemma extrema_of_series (xs : list (Js number)) :
  xs <> [] ->
  (forall v, In v xs -> exists x, v = val x /\ is_nan x = false) ->
  In (val (Math_min xs)) xs /\ In (val (Math_max xs)) xs
  /\ (forall x, In (val x) xs ->
                ltb x (Math_min xs) = false /\ ltb (Math_max xs) x = false).
Proof.
  intros Hne Hall.
  assert (Hnum : forall x, In x (map ToNumber xs) -> is_nan x = false).
  { intros x Hx. apply in_map_iff in Hx. destruct Hx as (v & <- & Hv).
    destruct (Hall v Hv) as (y & -> & Hy). exact Hy. }
  assert (Hback : forall x, In x (map ToNumber xs) -> In (val x) xs).
  { intros x Hx. apply in_map_iff in Hx. destruct Hx as (v & <- & Hv).
    destruct (Hall v Hv) as (y & -> & _). exact Hv. }
  assert (Hfirst : exists n, In n (map ToNumber xs)).
  { destruct xs as [| v xs]; [congruence |]. exists (ToNumber v). now left. }
  destruct Hfirst as (n & Hn).
  destruct (min_loop_least (map ToNumber xs) pos_infinity eq_refl Hnum)
    as (Hmin & _ & _ & Hle).
  destruct (max_loop_greatest (map ToNumber xs) neg_infinity eq_refl Hnum)
    as (Hmax & _ & _ & Hge).
  unfold Math_min, Math_max. repeat split.
  - apply Hback. destruct Hmin as [E | Hin]; [| exact Hin].
    pose proof (Hle n Hn) as Hb. rewrite E in Hb |- *.
    rewrite <- (not_below_infinity n (Hnum n Hn) Hb). exact Hn.
  - apply Hback. destruct Hmax as [E | Hin]; [| exact Hin].
    pose proof (Hge n Hn) as Hb. rewrite E in Hb |- *.
    rewrite <- (not_above_infinity n (Hnum n Hn) Hb). exact Hn.
  - apply Hle. apply in_map_iff. exists (val x). split; [reflexivity | assumption].
  - apply Hge. apply in_map_iff. exists (val x). split; [reflexivity | assumption].
Qed.

(** The same for the series a filter [keep] selects from the Samples. *)
Lemma series_extrema {A} (render : string -> A) (no_data : A)
    (keep : Js number -> bool) (counted : number -> bool)
    (metric : SensorData -> Js number) (data : list SensorData) :
  (forall r, In r data -> keep (metric r) = true ->
             exists x, metric r = val x /\ is_nan x = false /\ counted x = true) ->
  (forall r x, In r data -> metric r = val x -> counted x = true ->
               keep (metric r) = true) ->
  (exists r x, In r data /\ metric r = val x /\ counted x = true) ->
  attains_extrema render counted metric data
    {| Stats.min :=
         if_length (map metric (filter (fun r => keep (metric r)) data))
           (render (toFixed1 (Math_min (map metric (filter (fun r => keep (metric r)) data)))))
           no_data;
       Stats.max :=
         if_length (map metric (filter (fun r => keep (metric r)) data))
           (render (toFixed1 (Math_max (map metric (filter (fun r => keep (metric r)) data)))))
           no_data;
       Stats.avg := no_data |}.
Proof.
  intros Hkeep Hcount (r0 & x0 & Hr0 & Hx0 & Hc0).
  set (xs := map metric (filter (fun r => keep (metric r)) data)).
  assert (Hin : forall v, In v xs <-> exists r, In r data /\ keep (metric r) = true /\ metric r = v).
  { intros v. unfold xs. rewrite in_map_iff. split.
    - intros (r & <- & Hr). apply filter_In in Hr. destruct Hr. eauto.
    - intros (r & Hr & Hk & <-). exists r. split; [reflexivity |].
      apply filter_In. auto. }
  assert (Hne : xs <> []).
  { intros E. assert (H : In (val x0) xs).
    { apply Hin. exists r0. repeat split; eauto. }
    rewrite E in H. exact H. }
  assert (Hall : forall v, In v xs -> exists x, v = val x /\ is_nan x = false).
  { intros v Hv. apply Hin in Hv. destruct Hv as (r & Hr & Hk & <-).
    destruct (Hkeep r Hr Hk) as (x & -> & Hx & _). eauto. }
  destruct (extrema_of_series xs Hne Hall) as (Hmin & Hmax & Hbound).
  apply Hin in Hmin. destruct Hmin as (lo & Hlo & Hklo & Elo).
  apply Hin in Hmax. destruct Hmax as (hi & Hhi & Hkhi & Ehi).
  exists lo, hi, (Math_min xs), (Math_max xs).
  destruct (Hkeep lo Hlo Hklo) as (l & El & _ & Hcl).
  destruct (Hkeep hi Hhi Hkhi) as (h & Eh & _ & Hch).
  assert (l = Math_min xs) by congruence. assert (h = Math_max xs) by congruence.
  subst l h.
  repeat split; try assumption.
  - cbn [Stats.min]. destruct xs; [congruence | reflexivity].
  - cbn [Stats.max]. destruct xs; [congruence | reflexivity].
  - apply Hbound, Hin. exists r.
    split; [assumption | split; [eapply Hcount; eassumption | assumption]].
  - apply Hbound, Hin. exists r.
    split; [assumption | split; [eapply Hcount; eassumption | assumption]].
Qed.

Lemma attains_extrema_avg {A} (render : string -> A) counted metric data
    (lo hi av av' : A) :
  attains_extrema render counted metric data
    {| Stats.min := lo; Stats.max := hi; Stats.avg := av |} ->
  attains_extrema render counted metric data
    {| Stats.min := lo; Stats.max := hi; Stats.avg := av' |}.
Proof.
  intros (a & b & l & h & H). exists a, b, l, h. exact H.
Qed.

(** When every reading of a metric in the window is [null] or a number
    other than [NaN], and one at least is a number, the minimum and the
    maximum the component shows are the renderings of two readings of the
    window, and no reading is below the one or above the other. *)
Theorem component_extrema_are_readings (data : list SensorData) :
  (clean temperature data ->
   (exists r x, In r data /\ temperature r = val x) ->
   attains_extrema (fun s => s) (fun _ => true) temperature data
     (Stats.temp (Dashboard.calculateStats data)))
  /\ (clean humidity data ->
      (exists r x, In r data /\ humidity r = val x) ->
      attains_extrema (fun s => s) (fun _ => true) humidity data
        (Stats.humidity (Dashboard.calculateStats data))).
Proof.
  split; intros Hclean (r0 & x0 & Hr0 & Hx0);
    eapply attains_extrema_avg;
    apply (series_extrema (fun s : string => s) "--" not_null (fun _ => true));
    try (intros r Hr Hk; destruct (Hclean r Hr) as [E | (x & E & Hx)];
         [rewrite E in Hk; discriminate | eauto]);
    try (intros r x Hr E _; rewrite E; reflexivity);
    eauto.
Qed.

(** Whenever a metric has a value the route counts (a number other than 0
    and [NaN]), the minimum and the maximum of the route's statistics are
    the renderings of two counted values of the rows, and no counted value
    is below the one or above the other. *)
Theorem route_extrema_are_readings (results : list SensorData) :
  ((exists r x, In r results /\ temperature r = val x /\ Number.truthy x = true) ->
   attains_extrema val Number.truthy temperature results
     (Stats.temp (Route.stats results)))
  /\ ((exists r x, In r results /\ humidity r = val x /\ Number.truthy x = true) ->
      attains_extrema val Number.truthy humidity results
        (Stats.humidity (Route.stats results))).
Proof.
  assert (Hnan : forall x, Number.truthy x = true -> is_nan x = false).
  { intros x. destruct x as [[|] | [|] | | [|] m e]; cbn; congruence. }
  split; intros H; eapply attains_extrema_avg;
    apply (series_extrema val null truthy_number Number.truthy);
    try exact H;
    try (intros r Hr Hk;
         match type of Hk with truthy_number ?v = true =>
           destruct v as [| | x] eqn:E; try discriminate end;
         exists x; auto);
    try (intros r x Hr E Hx; rewrite E; exact Hx).
Qed.

Lemma component_extrema_are_readings_witness :
  clean temperature afternoon
  /\ (exists r x, In r afternoon /\ temperature r = val x)
  /\ attains_extrema (fun s => s) (fun _ => true) temperature afternoon
       (Stats.temp (Dashboard.calculateStats afternoon)).
Proof.
  assert (Hc : clean temperature afternoon).
  { intros r [<- | [<- | [<- | [<- | []]]]]; right; eexists; split; reflexivity. }
  assert (He : exists r x, In r afternoon /\ temperature r = val x).
  { eexists. eexists. split; [left; reflexivity | reflexivity]. }
  split; [exact Hc | split; [exact He |]].
  exact (proj1 (component_extrema_are_readings afternoon) Hc He).
Defined.

Lemma route_extrema_are_readings_witness :
  (exists r x, In r afternoon /\ temperature r = val x /\ Number.truthy x = true)
  /\ attains_extrema val Number.truthy temperature afternoon
       (Stats.temp (Route.stats afternoon)).
Proof.
  assert (He : exists r x,
             In r afternoon /\ temperature r = val x /\ Number.truthy x = true).
  { eexists. eexists. split; [left; reflexivity | split; reflexivity]. }
  split; [exact He |].
  exact (proj1 (route_extrema_are_readings afternoon) He).
Defined.

End ExtremaFacts.

(** ** What the page shows *)

Module RenderFacts.

Import Dashboard Render.

Lemma toFixed1_not_empty (x : number) : toFixed1 x <> "".
Proof.
  destruct (NumberFacts.toFixed1_head x) as (c & rest & [H | H] & _);
    rewrite H; discriminate.
Qed.

Lemma cell_text_number (v : Js number) :
  (v = null \/ v = undefined -> cell_text v = "--")
  /\ (forall x, v = val x -> cell_text v = toFixed1 x).
Proof.
  split.
  - intros [-> | ->]; reflexivity.
  - intros x ->. unfold cell_text.
    destruct (String.eqb_spec (toFixed1 x) ""); [| reflexivity].
    now destruct (toFixed1_not_empty x).
Qed.

(** A cell of the table shows the dash marker exactly for a reading that is
    [null] or missing; a number is shown with one decimal, 0 included. *)
Theorem cell_shows_dash_iff_absent (v : Js number) :
  (cell_text v = "--" <-> v = null \/ v = undefined)
  /\ (forall x, v = val x -> cell_text v = toFixed1 x).
Proof.
  assert (H : forall x, cell_text (val x) = toFixed1 x).
  { intros x. unfold cell_text.
    destruct (String.eqb_spec (toFixed1 x) ""); [| reflexivity].
    now destruct (toFixed1_not_empty x). }
  split.
  - destruct v as [| | x]; simpl.
    + split; auto.
    + split; auto.
    + fold (cell_text (val x)). rewrite H. split.
      * intros E. now destruct (NumberFacts.toFixed1_not_dashes x).
      * intros [E | E]; discriminate.
  - intros x ->. apply H.
Qed.

Lemma length_map_index {A B} (f : nat -> A -> B) (xs : list A) :
  forall i, List.length (map_index f i xs) = List.length xs.
Proof.
  induction xs as [| x xs IH]; intros i; simpl; [reflexivity | now rewrite IH].
Qed.

Lemma nth_error_map_index {A B} (f : nat -> A -> B) (xs : list A) :
  forall i n, nth_error (map_index f i xs) n = option_map (f (i + n)) (nth_error xs n).
Proof.
  induction xs as [| x xs IH]; intros i [| n]; simpl; try reflexivity.
  - rewrite Nat.add_0_r. reflexivity.
  - rewrite IH. f_equal. f_equal. lia.
Qed.

Lemma table_rows (c : list SensorData) :
  table c = map_index row 0 (firstn 10 (rev c)).
Proof. unfold table, slice_last. rewrite firstn_rev. reflexivity. Qed.

(** The table has one row for each of the last ten window entries, fewer
    when the window is shorter, newest first: row [i] shows the [i]-th
    newest entry, has key [i], and is highlighted only when [i] is 0. *)
Theorem table_shows_last_ten (c : list SensorData) :
  List.length (table c) = Nat.min 10 (List.length c)
  /\ forall i, nth_error (table c) i
               = if Nat.ltb i 10 then option_map (row i) (nth_error (rev c) i) else None.
Proof.
  rewrite table_rows. split.
  - rewrite length_map_index, length_firstn, length_rev. reflexivity.
  - intros i. rewrite nth_error_map_index, nth_error_firstn.
    destruct (Nat.ltb i 10); reflexivity.
Qed.

Lemma hd_error_rev_last {A} (l : list A) (d : A) :
  l <> [] -> nth_error (rev l) 0 = Some (last l d).
Proof.
  intros H. destruct (exists_last H) as (l' & a & ->).
  rewrite rev_app_distr, last_last. reflexivity.
Qed.

Section Page.

Variable JSON_parse : string -> option Json.

Lemma first_row_of_table (evs : list Event) (st : State) :
  appended JSON_parse evs <> [] ->
  nth_error (table (chartData (run JSON_parse evs st))) 0
  = Some (row 0 (data (run JSON_parse evs st))).
Proof.
  intros Hne.
  destruct (LifecycleFacts.window_last_run JSON_parse evs st Hne) as [Hc Hl].
  rewrite table_rows, nth_error_map_index, nth_error_firstn. cbn [Nat.ltb Nat.leb].
  rewrite (hd_error_rev_last _ (data st) Hc), Hl, LifecycleFacts.data_run.
  reflexivity.
Qed.

(** On a page that renders, once a message has been accepted, the first
    row of the table is highlighted and shows the Sample of the cards: its
    time and light status are those of the light card, and its temperature
    and humidity cells are the texts of the two cards without their units
    (the dash marker in both places for [null]). *)
Theorem first_row_is_current (evs : list Event) (st : State) (view : View) :
  appended JSON_parse evs <> [] ->
  render (run JSON_parse evs st) = Some view ->
  exists first : Row,
    nth_error (rows view) 0 = Some first
    /\ highlighted first = true
    /\ cell_time first = light_time view
    /\ cell_light first = light_text view
    /\ (temperature_card view = cell_temperature first ++ "°C"
        \/ (temperature_card view = "--" /\ cell_temperature first = "--"))
    /\ (humidity_card view = cell_humidity first ++ "%"
        \/ (humidity_card view = "--" /\ cell_humidity first = "--")).
Proof.
  intros Hne Hview.
  pose proof (first_row_of_table evs st Hne) as Hrow.
  unfold render in Hview.
  destruct (temperature (data (run JSON_parse evs st))) as [| | t] eqn:Et;
    try discriminate;
    destruct (humidity (data (run JSON_parse evs st))) as [| | h] eqn:Eh;
    try discriminate;
    cbn [card_text] in Hview; inversion Hview; subst view; clear Hview;
    cbn [rows light_time light_text temperature_card humidity_card];
    exists (row 0 (data (run JSON_parse evs st)));
    (split; [exact Hrow |]);
    cbn [row highlighted cell_time cell_light cell_temperature cell_humidity Nat.eqb];
    rewrite Et, Eh; repeat split;
    first [ right; split; reflexivity
          | left; rewrite (proj2 (cell_text_number _) _ eq_refl); reflexivity ].
Qed.

(** The page after a message.  A payload that is not an object, or an
    object without its [temperature] or its [humidity] key, is accepted and
    then makes the cards throw: the page cannot be rendered.  With both keys
    present the page renders.  A dropped message leaves the page as it was. *)
Theorem missing_key_breaks_page (m : string) (c : Clock) (st : State) :
  (JSON_parse m = Some JsonOther ->
   render (step JSON_parse st (message m c)) = None)
  /\ (forall o, JSON_parse m = Some (JsonObject o) ->
                (render (step JSON_parse st (message m c)) = None
                 <-> p_temperature o = undefined \/ p_humidity o = undefined))
  /\ (JSON_parse m = None \/ JSON_parse m = Some JsonNull ->
      render (step JSON_parse st (message m c)) = render st).
Proof.
  unfold step. simpl. unfold on_message. repeat split.
  - intros ->. reflexivity.
  - rewrite H. unfold render, accept. simpl.
    destruct (p_temperature o), (p_humidity o); simpl; auto; discriminate.
  - rewrite H. unfold render, accept. simpl.
    destruct (p_temperature o), (p_humidity o); simpl; intros [E | E];
      try discriminate; reflexivity.
  - intros [-> | ->]; reflexivity.
Qed.

End Page.

Lemma first_row_is_current_witness :
  appended parse_reading [message "{}" noon; message dark_text noon] <> []
  /\ exists view : View,
       render (run parse_reading [message "{}" noon; message dark_text noon] initial)
       = Some view
       /\ temperature_card view = "21.9°C"
       /\ exists first : Row,
            nth_error (rows view) 0 = Some first
            /\ highlighted first = true
            /\ cell_time first = light_time view
            /\ cell_light first = light_text view
            /\ (temperature_card view = cell_temperature first ++ "°C"
                \/ (temperature_card view = "--" /\ cell_temperature first = "--"))
            /\ (humidity_card view = cell_humidity first ++ "%"
                \/ (humidity_card view = "--" /\ cell_humidity first = "--")).
Proof.
  assert (H : appended parse_reading [message "{}" noon; message dark_text noon] <> [])
    by discriminate.
  split; [exact H |].
  eexists. split; [vm_compute; reflexivity |]. split; [reflexivity |].
  exact (first_row_is_current parse_reading
           [message "{}" noon; message dark_text noon] initial _ H eq_refl).
Defined.

Lemma missing_key_breaks_page_witness :
  parse_empty_object "{}" = Some (JsonObject no_properties)
  /\ (p_temperature no_properties = undefined \/ p_humidity no_properties = undefined)
  /\ render (step parse_empty_object initial (message "{}" noon)) = None.
Proof.
  split; [reflexivity | split; [left; reflexivity |]].
  exact (proj2 (proj1 (proj2 (missing_key_breaks_page parse_empty_object "{}" noon initial))
                  no_properties eq_refl)
           (or_introl eq_refl)).
Defined.

Lemma cell_shows_dash_iff_absent_witness :
  cell_text (val (of_Z 0)) = toFixed1 (of_Z 0) /\ toFixed1 (of_Z 0) = "0.0".
Proof.
  split; [| reflexivity].
  exact (proj2 (cell_shows_dash_iff_absent (val (of_Z 0))) (of_Z 0) eq_refl).
Defined.

End RenderFacts.

(** ** The snapshot and the bootstrap *)

Module BootstrapFacts.

Import Dashboard Wire.

Lemma last_rev_hd {A} (l : list A) (d : A) : last (rev l) d = hd d l.
Proof.
  destruct l as [| a l]; [reflexivity |]. simpl. apply last_last.
Qed.

Lemma last_map {A B} (f : A -> B) (l : list A) :
  forall d, last (map f l) (f d) = f (last l d).
Proof.
  induction l as [| a l IH]; intros d; [reflexivity |].
  simpl map. rewrite !LifecycleFacts.last_default. apply IH.
Qed.

(** The fields of a successful response agree with each other: with
    [chartData] the rows oldest first, [current] is its last entry (the
    placeholder when there is none) and [history] is its last 20 entries,
    newest first. *)
Theorem snapshot_fields_agree (results : list SensorData) :
  Api.chartData (Route.body (Route.success results)) = val (rev results)
  /\ Api.current (Route.body (Route.success results))
     = val (last (rev results) Route.placeholder)
  /\ Api.history (Route.body (Route.success results))
     = val (rev (slice_last 20 (rev results)))
  /\ Api.error (Route.body (Route.success results)) = undefined.
Proof.
  repeat split.
  - simpl. rewrite last_rev_hd. destruct results; reflexivity.
  - simpl. unfold slice_first, slice_last. rewrite <- firstn_rev, rev_involutive.
    reflexivity.
Qed.

Lemma wire_placeholder : wire_sample Route.placeholder = Route.placeholder.
Proof. reflexivity. Qed.

(** Over the wire a metric that was not missing arrives as [null] or as a
    number other than [NaN]. *)
Lemma wire_clean (metric : SensorData -> Js number) (data : list SensorData) :
  (forall r, metric (wire_sample r) = wire_number (metric r)) ->
  (forall r, In r data -> metric r <> undefined) ->
  clean metric (map wire_sample data).
Proof.
  intros Hm H r Hr. apply in_map_iff in Hr. destruct Hr as (r0 & <- & Hr0).
  rewrite Hm. specialize (H r0 Hr0).
  destruct (metric r0) as [| | [s | s | | s m e]]; simpl; try congruence; auto;
    right; eexists; split; reflexivity.
Qed.

Section Bootstrap.

Variable influx : Flux.Query -> Flux.Run.
Variable bucket : string.
Variables f g : Flux.Time -> string.

(** The bootstrap end to end.  When the query completes, the window becomes
    the rows as they arrive over the wire, oldest first, whatever it held
    before (Samples received earlier are gone, and an empty history empties
    it); the current Sample becomes the newest row, or the placeholder; the
    statistics are recomputed by the component from the new window; status
    and counter stay.  When the query fails nothing changes. *)
Theorem bootstrap_replaces_window (st : State) :
  (Flux.ending (influx (Route.query bucket)) = Flux.complete ->
   chartData (bootstrap influx bucket f g st)
   = map wire_sample (rev (map (Route.next f g) (Flux.rows (influx (Route.query bucket)))))
   /\ data (bootstrap influx bucket f g st)
      = last (chartData (bootstrap influx bucket f g st)) Route.placeholder
   /\ stats (bootstrap influx bucket f g st)
      = calculateStats (chartData (bootstrap influx bucket f g st))
   /\ status (bootstrap influx bucket f g st) = status st
   /\ messageCount (bootstrap influx bucket f g st) = messageCount st)
  /\ (Flux.ending (influx (Route.query bucket)) = Flux.error ->
      bootstrap influx bucket f g st = st).
Proof.
  unfold bootstrap. rewrite RouteFacts.perform_GET. split; intros ->.
  - cbn [fst Route.body Route.success wire_body wire_key fetchHistory
           Api.chartData Api.current].
    cbn [fst data chartData stats status messageCount setData setStats setChartData].
    repeat split.
    set (l := map (Route.next f g) (Flux.rows (influx (Route.query bucket)))).
    transitivity (wire_sample (last (rev l) Route.placeholder)).
    + rewrite last_rev_hd. destruct l; reflexivity.
    + symmetry. exact (last_map wire_sample (rev l) Route.placeholder).
  - reflexivity.
Qed.

(** A [NaN] or an infinity in a row does not reach the component: when no
    row lacks the metric's column, every value of the metric in the window
    after the bootstrap is [null] or a number other than [NaN]. *)
Theorem bootstrapped_window_is_clean (st : State) :
  Flux.ending (influx (Route.query bucket)) = Flux.complete ->
  ((forall row, In row (Flux.rows (influx (Route.query bucket))) ->
                Flux.temperature row <> undefined) ->
   clean temperature (chartData (bootstrap influx bucket f g st)))
  /\ ((forall row, In row (Flux.rows (influx (Route.query bucket))) ->
                   Flux.humidity row <> undefined) ->
      clean humidity (chartData (bootstrap influx bucket f g st))).
Proof.
  intros Hend.
  assert (E : chartData (bootstrap influx bucket f g st)
              = map wire_sample
                  (rev (map (Route.next f g) (Flux.rows (influx (Route.query bucket)))))).
  { unfold bootstrap. rewrite RouteFacts.perform_GET, Hend. reflexivity. }
  rewrite E.
  split; intros H; apply wire_clean; try reflexivity;
    intros r Hr; apply in_rev, in_map_iff in Hr; destruct Hr as (row & <- & Hrow);
    apply H, Hrow.
Qed.

(** The response is all or nothing.  Either the query completed and the
    response has status 200 with [current], [history], [chartData] and
    [stats] and no [error], and nothing was printed; or the query failed and
    the response has status 500 with [error] alone, the rows streamed before
    the failure being discarded. *)
Theorem response_is_all_or_nothing :
  (Flux.ending (influx (Route.query bucket)) = Flux.complete
   /\ perform influx (Route.GET bucket f g)
      = (Route.success (map (Route.next f g) (Flux.rows (influx (Route.query bucket)))),
         [query_rows (Route.query bucket)])
   /\ Route.status (fst (perform influx (Route.GET bucket f g))) = 200
   /\ Api.error (Route.body (fst (perform influx (Route.GET bucket f g)))) = undefined
   /\ exists cur hist chart st,
        Route.body (fst (perform influx (Route.GET bucket f g)))
        = {| Api.current := val cur; Api.history := val hist;
             Api.chartData := val chart; Api.stats := val st;
             Api.error := undefined |})
  \/ (Flux.ending (influx (Route.query bucket)) = Flux.error
      /\ perform influx (Route.GET bucket f g)
         = (Route.failure,
            [query_rows (Route.query bucket); console_error "InfluxDB error:"])
      /\ Route.status (fst (perform influx (Route.GET bucket f g))) = 500
      /\ Route.body (fst (perform influx (Route.GET bucket f g)))
         = {| Api.current := undefined; Api.history := undefined;
              Api.chartData := undefined; Api.stats := undefined;
              Api.error := val "Failed to fetch data" |}).
Proof.
  rewrite RouteFacts.perform_GET.
  destruct (Flux.ending (influx (Route.query bucket))); [left | right];
    repeat split.
  unfold Route.success. cbn [fst Route.body]. repeat eexists.
Qed.

End Bootstrap.

Lemma bootstrap_replaces_window_witness :
  Flux.ending (Influx.serve greenhouse (Flux.hours 100) (Route.query "sensors"))
  = Flux.complete
  /\ chartData (bootstrap (Influx.serve greenhouse (Flux.hours 100)) "sensors"
                  show_hour show_hour
                  (run parse_empty_object [message "{}" noon] initial))
     = map wire_sample
         (rev (map (Route.next show_hour show_hour)
                 (Flux.rows (Influx.serve greenhouse (Flux.hours 100)
                               (Route.query "sensors"))))).
Proof.
  split; [reflexivity |].
  exact (proj1 (proj1 (bootstrap_replaces_window
                         (Influx.serve greenhouse (Flux.hours 100)) "sensors"
                         show_hour show_hour
                         (run parse_empty_object [message "{}" noon] initial))
                  eq_refl)).
Defined.

Lemma bootstrapped_window_is_clean_witness :
  Flux.ending (Influx.serve greenhouse (Flux.hours 100) (Route.query "sensors"))
  = Flux.complete
  /\ (forall row,
         In row (Flux.rows (Influx.serve greenhouse (Flux.hours 100)
                              (Route.query "sensors"))) ->
         Flux.temperature row <> undefined)
  /\ clean temperature
       (chartData (bootstrap (Influx.serve greenhouse (Flux.hours 100)) "sensors"
                     show_hour show_hour initial)).
Proof.
  assert (H : forall row,
             In row (Flux.rows (Influx.serve greenhouse (Flux.hours 100)
                                  (Route.query "sensors"))) ->
             Flux.temperature row <> undefined).
  { intros row [<- | [<- | []]]; discriminate. }
  split; [reflexivity | split; [exact H |]].
  exact (proj1 (bootstrapped_window_is_clean
                  (Influx.serve greenhouse (Flux.hours 100)) "sensors"
                  show_hour show_hour initial eq_refl) H).
Defined.

End BootstrapFacts.

(** ** What every window entry looks like *)

Module EntryFacts.

Import Dashboard.



Section Entries.

Variable JSON_parse : string -> option Json.



End Entries.


End EntryFacts.
